(** * Point-colour resolution of the 3D panel: [renderables/colorMode.ts]

    A shallow embedding of the colour-mode module and the properties its
    specification states about it.

    - JavaScript numbers are IEEE-754 binary64 values, modelled by the
      library's executable [spec_float] with precision 53 and maximal
      exponent 1024.
    - The module-level objects ([tempColor1], [tempColor2], [tempColor],
      [TurboLookup]) form an explicit store threaded through every call;
      closures that capture one of these objects read it from the store when
      they run.
    - The collaborators imported from [../color] and [../math] are parameters
      of the development. *)

From Stdlib Require Import ZArith Lia Bool List.
From Stdlib Require Import Ascii String.
From Stdlib Require Import Floats.SpecFloat.
From stdpp Require Import base list.

Local Open Scope Z_scope.

(** ** JavaScript numbers *)

Module Js.

Definition prec : Z := 53.
Definition emax : Z := 1024.

Definition num : Type := spec_float.

Definition NaN : num := S754_nan.

(** The number denoted by an integer literal (exact below 2^53). *)
Definition ofZ (n : Z) : num := binary_normalize prec emax n 0 false.

Definition add : num -> num -> num := SFadd prec emax.
Definition sub : num -> num -> num := SFsub prec emax.
Definition mul : num -> num -> num := SFmul prec emax.
Definition div : num -> num -> num := SFdiv prec emax.

(** [x < y], [x <= y] and [x === y] on numbers. *)
Definition ltb : num -> num -> bool := SFltb.
Definition leb : num -> num -> bool := SFleb.
Definition eqb : num -> num -> bool := SFeqb.

(** A decimal literal [n / 10^k], rounded once to the nearest double (both
    operands are exact for the literals of this module). *)
Definition dec (n : Z) (k : Z) : num := div (ofZ n) (ofZ (10 ^ k)).

(** [Number.EPSILON] is 2^-52. *)
Definition Number_EPSILON : num := SFldexp prec emax (ofZ 1) (-52).

Definition isNegZero (x : num) : bool :=
  match x with S754_zero true => true | _ => false end.

(** [Math.max] and [Math.min] of two arguments: NaN if either is NaN, and
    [+0] is larger than [-0]. *)
Definition Math_max (x y : num) : num :=
  match SFcompare x y with
  | None => NaN
  | Some Lt => y
  | Some Gt => x
  | Some Eq => if isNegZero x then y else x
  end.

Definition Math_min (x y : num) : num :=
  match SFcompare x y with
  | None => NaN
  | Some Lt => x
  | Some Gt => y
  | Some Eq => if isNegZero x then x else y
  end.

(** The signed integer mantissa of a finite number. *)
Definition signed (s : bool) (m : positive) : Z := cond_Zopp s (Zpos m).

(** [Math.floor], [Math.trunc] and [Math.round]: the integer is computed
    exactly; a zero result keeps the sign of the argument. *)
Definition Math_floor (x : num) : num :=
  match x with
  | S754_finite s m e =>
      if 0 <=? e then x
      else binary_normalize prec emax (signed s m / 2 ^ (- e)) 0 s
  | _ => x
  end.

Definition Math_trunc (x : num) : num :=
  match x with
  | S754_finite s m e =>
      if 0 <=? e then x
      else binary_normalize prec emax (Z.quot (signed s m) (2 ^ (- e))) 0 s
  | _ => x
  end.

Definition Math_round (x : num) : num :=
  match x with
  | S754_finite s m e =>
      if 0 <=? e then x
      else binary_normalize prec emax
             ((2 * signed s m + 2 ^ (- e)) / (2 * 2 ^ (- e))) 0 s
  | _ => x
  end.

(** The remainder operator [x % y]: exact, with the sign of the dividend. *)
Definition rem (x y : num) : num :=
  match x, y with
  | S754_nan, _ | _, S754_nan => NaN
  | S754_infinity _, _ => NaN
  | _, S754_zero _ => NaN
  | _, S754_infinity _ => x
  | S754_zero _, _ => x
  | S754_finite sx mx ex, S754_finite _ my ey =>
      let e0 := Z.min ex ey in
      let X := Zpos mx * 2 ^ (ex - e0) in
      let Y := Zpos my * 2 ^ (ey - e0) in
      binary_normalize prec emax (cond_Zopp sx (X mod Y)) e0 sx
  end.

(** [x >>> 0], the conversion ToUint32: NaN, the infinities and the zeros go
    to 0; a finite number is truncated and reduced modulo 2^32. *)
Definition ToUint32 (x : num) : Z :=
  match x with
  | S754_finite s m e =>
      (if 0 <=? e then signed s m * 2 ^ e
       else Z.quot (signed s m) (2 ^ (- e))) mod 2 ^ 32
  | _ => 0
  end.

(** The integer a number denotes, when it denotes one ([-0] denotes 0): the
    property key [ToString x] is then the decimal numeral of that integer. *)
Definition toInteger (x : num) : option Z :=
  match x with
  | S754_zero _ => Some 0
  | S754_finite s m e =>
      if 0 <=? e then Some (signed s m * 2 ^ e)
      else if Zpos m mod 2 ^ (- e) =? 0 then Some (signed s m / 2 ^ (- e))
      else None
  | _ => None
  end.

(** Element read [a[x]] of an array or typed array with a number as key:
    [None] stands for [undefined] (no such own property). *)
Definition index {A : Type} (a : list A) (x : num) : option A :=
  match toInteger x with
  | Some k => if (0 <=? k) && (k <? Z.of_nat (length a)) then a !! Z.to_nat k else None
  | None => None
  end.

(** [Math.fround]: the value a [Float32Array] element holds after a store,
    rounded to binary32 and read back as a double. *)
Definition fround (x : num) : num :=
  match x with
  | S754_finite s m e =>
      match binary_round 24 128 s m e with
      | S754_finite s' m' e' => binary_round prec emax s' m' e'
      | y => y
      end
  | _ => x
  end.

End Js.

Import Js.

(** ** Colours, settings and the module's own objects *)

(** What a [number]-typed slot holds at run time: a number, or [undefined]
    after a read that found no element. *)
Inductive value : Type :=
| Undefined
| Num (x : num).

Definition toNumber (v : value) : num :=
  match v with
  | Undefined => NaN
  | Num x => x
  end.

Record ColorRGBA : Type := mkColor { r : value; g : value; b : value; a : value }.

Definition rgba (x y z w : num) : ColorRGBA := mkColor (Num x) (Num y) (Num z) (Num w).

Definition setAlpha (c : ColorRGBA) (v : value) : ColorRGBA :=
  {| r := r c; g := g c; b := b c; a := v |}.

Record ColorModeSettings : Type := {
  colorMode : string;
  flatColor : string;
  colorField : option string;
  gradient : string * string;
  colorMap : string;
  explicitAlpha : num;
  minValue : option num;
  maxValue : option num
}.

(** The module-level mutable objects. [TurboLookup] is [None] while the
    variable is still [undefined]. *)
Record Globals : Type := {
  tempColor1 : ColorRGBA;
  tempColor2 : ColorRGBA;
  TurboLookup : option (list num);
  tempColor : ColorRGBA
}.

Definition initialGlobals : Globals :=
  let zero := ofZ 0 in
  {| tempColor1 := rgba zero zero zero zero;
     tempColor2 := rgba zero zero zero zero;
     TurboLookup := None;
     tempColor := rgba zero zero zero zero |}.

(** A reference to one of the module's colour objects: what a local such as
    [flatColor] holds after [stringToRgba(tempColor1, ...)] returns. *)
Inductive ColorRef : Type := TempColor1 | TempColor2 | TempColor.

Definition deref (gl : Globals) (ref : ColorRef) : ColorRGBA :=
  match ref with
  | TempColor1 => tempColor1 gl
  | TempColor2 => tempColor2 gl
  | TempColor => tempColor gl
  end.

Definition assign (ref : ColorRef) (c : ColorRGBA) (gl : Globals) : Globals :=
  match ref with
  | TempColor1 =>
      {| tempColor1 := c; tempColor2 := tempColor2 gl;
         TurboLookup := TurboLookup gl; tempColor := tempColor gl |}
  | TempColor2 =>
      {| tempColor1 := tempColor1 gl; tempColor2 := c;
         TurboLookup := TurboLookup gl; tempColor := tempColor gl |}
  | TempColor =>
      {| tempColor1 := tempColor1 gl; tempColor2 := tempColor2 gl;
         TurboLookup := TurboLookup gl; tempColor := c |}
  end.

Definition setTurboLookup (t : list num) (gl : Globals) : Globals :=
  {| tempColor1 := tempColor1 gl; tempColor2 := tempColor2 gl;
     TurboLookup := Some t; tempColor := tempColor gl |}.

(** A converter closure: it receives the caller's output colour and the
    point's value, runs against the current store, and leaves the new
    contents of the output colour. *)
Definition ColorConverter : Type := ColorRGBA -> num -> Globals -> Globals * ColorRGBA.

(** How a call of [getColorConverter] completes. [ReturnedUndefined] is the
    fall off the end of the [switch], when no [case] matched. *)
Inductive Completion : Type :=
| Returned (convert : ColorConverter)
| ReturnedUndefined
| Thrown (message : string).

(** ** Bit-packed colours *)

(** [x & y] yields a signed 32-bit integer, [x >>> k] an unsigned one. *)
Definition toInt32 (z : Z) : Z :=
  let w := z mod 2 ^ 32 in if w <? 2 ^ 31 then w else w - 2 ^ 32.

Definition bitAnd (x y : Z) : Z := toInt32 (Z.land (x mod 2 ^ 32) (y mod 2 ^ 32)).

Definition unsignedShiftRight (x k : Z) : Z := Z.shiftr (x mod 2 ^ 32) k.

Definition getColorBgra (output : ColorRGBA) (colorValue : num) : ColorRGBA :=
  let num := ToUint32 colorValue in
  {| r := Num (div (ofZ (unsignedShiftRight (bitAnd num 0x00ff0000) 16)) (ofZ 255));
     g := Num (div (ofZ (unsignedShiftRight (bitAnd num 0x0000ff00) 8)) (ofZ 255));
     b := Num (div (ofZ (unsignedShiftRight (bitAnd num 0x000000ff) 0)) (ofZ 255));
     a := Num (div (ofZ (unsignedShiftRight (bitAnd num 0xff000000) 24)) (ofZ 255)) |}.

(** ** The bluegold table *)

Definition blueGoldColormapData : list (Z * Z * Z) :=
  [ (0, 126, 174); (4, 129, 177); (8, 132, 180); (12, 135, 184);
    (16, 138, 187); (20, 141, 190); (24, 144, 194); (28, 147, 197);
    (32, 150, 200); (36, 153, 204); (40, 156, 207); (44, 159, 210);
    (49, 162, 214); (53, 165, 217); (57, 168, 221); (61, 171, 224);
    (65, 174, 227); (69, 177, 231); (74, 180, 234); (85, 183, 235);
    (95, 187, 236); (106, 190, 237); (116, 194, 238); (127, 197, 240);
    (138, 200, 241); (148, 204, 242); (157, 206, 234); (165, 207, 217);
    (173, 207, 200); (181, 208, 183); (189, 209, 166); (197, 210, 149);
    (204, 211, 132); (212, 211, 115); (220, 212, 98); (228, 213, 81);
    (236, 214, 64); (244, 215, 47); (252, 215, 30); (254, 215, 30);
    (254, 215, 36); (254, 215, 43); (254, 215, 49); (254, 215, 55);
    (254, 215, 62); (254, 214, 68); (254, 214, 74); (254, 214, 80);
    (254, 214, 87); (254, 214, 93); (254, 214, 99); (255, 214, 106);
    (255, 213, 105); (255, 213, 105); (255, 213, 104); (255, 213, 104);
    (255, 212, 103); (255, 212, 103); (255, 212, 102); (255, 212, 102);
    (255, 211, 101); (255, 211, 101); (255, 211, 100); (255, 211, 100);
    (255, 210, 99); (255, 210, 99); (255, 210, 98); (255, 210, 98);
    (255, 210, 98); (255, 209, 97); (255, 209, 97); (255, 209, 96);
    (255, 209, 96); (255, 208, 95); (255, 208, 95); (255, 208, 94);
    (255, 208, 94); (254, 206, 92); (254, 204, 89); (254, 202, 86);
    (253, 200, 84); (253, 198, 81); (252, 196, 78); (252, 194, 75);
    (252, 192, 72); (251, 190, 70); (251, 188, 67); (250, 186, 64);
    (250, 184, 61); (250, 182, 58); (249, 180, 56); (249, 178, 53);
    (248, 176, 50); (248, 174, 47); (248, 172, 44); (247, 170, 42);
    (247, 168, 39); (246, 166, 36); (246, 164, 33); (246, 162, 30);
    (245, 160, 28); (245, 158, 25); (244, 156, 22); (244, 154, 19);
    (244, 152, 16); (243, 150, 14); (243, 148, 11); (243, 146, 8);
    (242, 144, 5); (242, 142, 2); (241, 140, 1); (241, 140, 1);
    (241, 140, 1); (241, 139, 1); (241, 139, 1); (241, 138, 1);
    (241, 138, 1); (241, 138, 1); (241, 137, 1); (240, 137, 1);
    (240, 136, 1); (240, 136, 1); (240, 136, 1); (240, 135, 1);
    (240, 135, 1); (240, 134, 1); (240, 134, 1); (240, 134, 1);
    (239, 133, 1); (239, 132, 1); (239, 131, 1); (238, 130, 1);
    (238, 128, 1); (238, 127, 1); (237, 126, 1); (237, 125, 1);
    (237, 124, 1); (236, 123, 1); (236, 122, 1); (236, 121, 1);
    (235, 119, 1); (235, 118, 1); (235, 117, 1); (234, 116, 1);
    (234, 115, 1); (234, 114, 1); (233, 113, 1); (233, 113, 1);
    (232, 113, 1); (232, 112, 1); (232, 112, 1); (231, 112, 1);
    (231, 112, 1); (230, 111, 1); (230, 111, 1); (230, 111, 1);
    (229, 111, 1); (229, 110, 1); (229, 110, 1); (228, 110, 1);
    (228, 109, 1); (227, 109, 1); (227, 109, 1); (227, 109, 1);
    (226, 108, 1); (225, 106, 1); (225, 105, 1); (224, 104, 1);
    (224, 103, 1); (223, 102, 1); (222, 101, 1); (222, 99, 1); (221, 98, 1);
    (220, 97, 1); (220, 96, 1); (219, 95, 1); (219, 93, 1); (218, 92, 1);
    (217, 91, 1); (217, 90, 1); (216, 89, 1); (216, 88, 1); (215, 87, 1);
    (214, 87, 1); (213, 87, 1); (213, 86, 1); (212, 86, 1); (211, 86, 1);
    (210, 85, 1); (210, 85, 1); (209, 85, 1); (208, 85, 1); (207, 84, 1);
    (207, 84, 1); (206, 84, 1); (205, 83, 1); (205, 83, 1); (204, 83, 1);
    (203, 83, 1); (202, 82, 1); (202, 82, 1); (201, 82, 1); (200, 81, 0);
    (199, 81, 0); (197, 80, 0); (196, 80, 0); (195, 79, 0); (194, 78, 0);
    (192, 78, 0); (191, 77, 0); (190, 77, 0); (189, 76, 0); (187, 76, 0);
    (186, 75, 0); (185, 74, 0); (184, 74, 0); (183, 73, 0); (181, 73, 0);
    (180, 72, 0); (179, 72, 0); (179, 72, 0); (178, 71, 0); (179, 72, 0);
    (179, 72, 0); (179, 72, 0); (179, 72, 0); (179, 72, 0); (179, 72, 0);
    (179, 72, 0); (179, 72, 0); (179, 72, 0); (179, 72, 0); (179, 72, 0);
    (179, 72, 0); (179, 72, 0); (179, 72, 0); (179, 72, 0); (179, 72, 0);
    (182, 70, 0); (186, 67, 0); (190, 65, 0); (194, 62, 0); (198, 60, 0);
    (202, 58, 0); (206, 55, 0); (210, 53, 0); (214, 51, 0); (218, 48, 0);
    (222, 46, 0); (226, 44, 0); (230, 41, 0); (234, 39, 0); (238, 37, 0);
    (242, 34, 0); (246, 32, 0); (250, 30, 0) ].

Definition bluegoldLookup (output : ColorRGBA) (pct : num) : ColorRGBA :=
  match index blueGoldColormapData pct with
  | Some (r0, g0, b0) =>
      {| r := Num (div (ofZ r0) (ofZ 255));
         g := Num (div (ofZ g0) (ofZ 255));
         b := Num (div (ofZ b0) (ofZ 255));
         a := Num (ofZ 1) |}
  | None => output
  end.

(** ** Colormaps and the converter factory *)

Definition TURBO_LOOKUP_SIZE : Z := 65535.

(** [new Float32Array(n)]: [n] elements, all [+0]. *)
Definition Float32Array_new (n : Z) : list num := replicate (Z.to_nat n) (ofZ 0).

(** [a[k] = v] on a [Float32Array], for an integer [k]: the stored value is
    rounded to single precision; a store outside the array does nothing. *)
Definition Float32Array_set (t : list num) (k : Z) (v : value) : list num :=
  if 0 <=? k then <[Z.to_nat k := fround (toNumber v)]> t else t.

(** [a[x]!] on a [Float32Array], as the value the assignment receives. *)
Definition Float32Array_get (t : list num) (x : num) : value :=
  match index t x with
  | Some v => Num v
  | None => Undefined
  end.

(** The three.js vectors [v4] and [v2] are scratch objects that [turboLinear]
    sets before every read, so they are bound locally; [dot] is three.js's
    left-to-right sum of products. *)
Definition Vector4_dot (v w : num * num * num * num) : num :=
  let '(vx, vy, vz, vw) := v in
  let '(wx, wy, wz, ww) := w in
  add (add (add (mul vx wx) (mul vy wy)) (mul vz wz)) (mul vw ww).

Definition Vector2_dot (v w : num * num) : num :=
  add (mul (fst v) (fst w)) (mul (snd v) (snd w)).

Definition kRedVec4 := (dec 13572138 8, dec 46153926 7, dec (-4266032258) 8, dec 13213108234 8).
Definition kGreenVec4 := (dec 9140261 8, dec 219418839 8, dec 484296658 8, dec (-1418503333) 8).
Definition kBlueVec4 := (dec 1066733 7, dec 1264194608 8, dec (-6058204836) 8, dec 11036276771 8).
Definition kRedVec2 := (dec (-15294239396) 8, dec 5928637943 8).
Definition kGreenVec2 := (dec 427729857 8, dec 282956604 8).
Definition kBlueVec2 := (dec (-8990310912) 8, dec 2734824973 8).

Section ColorMode.

(** The collaborators from [../color] and [../math], whose source is not part
    of this module.

    - [stringToRgbaWrites old s] is what [stringToRgba(output, s)] leaves in
      [output], whose contents were [old] (so that a parser which leaves the
      output untouched on a malformed string is covered);
    - [SRGBToLinear] is the transfer function on one channel;
    - [rgbaGradient output a b t] is what the interpolation leaves in
      [output];
    - [clamp x lo hi] is the clamp of [../math]. *)
Variable stringToRgbaWrites : ColorRGBA -> string -> ColorRGBA.
Variable SRGBToLinear : num -> num.
Variable rgbaGradient : ColorRGBA -> ColorRGBA -> ColorRGBA -> num -> ColorRGBA.
Variable clamp : num -> num -> num -> num.

(** Modelled from the spec: [stringToRgba(output, colorString)] of
    [../color] parses into the caller-supplied colour object and hands that
    same object back (the mutable-output convention of the hot-path
    functions), so the reference it returns is [output] itself. *)
Definition stringToRgba (output : ColorRef) (colorStr : string) (gl : Globals)
  : Globals * ColorRef :=
  (assign output (stringToRgbaWrites (deref gl output) colorStr) gl, output).

(** Modelled from the spec: [rgbaToLinear(output, color)] of [../color]
    applies the transfer function to each of r, g, b and passes alpha
    through unchanged. Each channel depends on the same channel only, so the
    in-place calls of this module ([output] and [color] the same object) are
    covered. *)
Definition linearized (c : ColorRGBA) : ColorRGBA :=
  {| r := Num (SRGBToLinear (toNumber (r c)));
     g := Num (SRGBToLinear (toNumber (g c)));
     b := Num (SRGBToLinear (toNumber (b c)));
     a := a c |}.

(** Modelled from the spec: [rgbaToLinear(output, color)] writes the
    linearized [color] into [output]. *)
Definition rgbaToLinear (output color : ColorRef) (gl : Globals) : Globals :=
  assign output (linearized (deref gl color)) gl.

Definition rainbowLinear (output : ColorRGBA) (pct : num) : ColorRGBA :=
  let h := add (mul (sub (ofZ 1) (clamp pct (ofZ 0) (ofZ 1))) (ofZ 5)) (ofZ 1) in
  let i := Math_floor h in
  let f := rem h (ofZ 1) in
  let f := if ltb (rem i (ofZ 2)) (ofZ 1) then sub (ofZ 1) f else f in
  let n := SRGBToLinear (sub (ofZ 1) f) in
  if leb i (ofZ 1) then rgba n (ofZ 0) (ofZ 1) (ofZ 1)
  else if eqb i (ofZ 2) then rgba (ofZ 0) n (ofZ 1) (ofZ 1)
  else if eqb i (ofZ 3) then rgba (ofZ 0) (ofZ 1) n (ofZ 1)
  else if eqb i (ofZ 4) then rgba n (ofZ 1) (ofZ 0) (ofZ 1)
  else rgba (ofZ 1) n (ofZ 0) (ofZ 1).

Definition turboLinear (output : ColorRGBA) (pct : num) : ColorRGBA :=
  let x := add (mul (clamp pct (ofZ 0) (ofZ 1)) (dec 99 2)) (dec 1 2) in
  let v4 := (ofZ 1, x, mul x x, mul (mul x x) x) in
  let '(_, _, v4z, v4w) := v4 in
  let v2 := (v4z, v4w) in
  let v2 := (mul (fst v2) v4z, mul (snd v2) v4z) in
  let channel k4 k2 :=
    SRGBToLinear (clamp (add (Vector4_dot v4 k4) (Vector2_dot v2 k2)) (ofZ 0) (ofZ 1)) in
  rgba (channel kRedVec4 kRedVec2) (channel kGreenVec4 kGreenVec2)
       (channel kBlueVec4 kBlueVec2) (ofZ 1).

(** The body of the [for] loop that fills the table, then the loop itself:
    [n] iterations remain and [i] is the loop counter. The counter and the
    offsets are integers far below 2^53, exact as doubles, and are kept in
    [Z]. *)
Definition fillTurboEntry (i : Z) (st : list num * ColorRGBA) : list num * ColorRGBA :=
  let '(lookup, tempColor) := st in
  let tempColor := turboLinear tempColor (div (ofZ i) (ofZ (TURBO_LOOKUP_SIZE - 1))) in
  let offset := i * 3 in
  let lookup := Float32Array_set lookup (offset + 0) (r tempColor) in
  let lookup := Float32Array_set lookup (offset + 1) (g tempColor) in
  let lookup := Float32Array_set lookup (offset + 2) (b tempColor) in
  (lookup, tempColor).

Fixpoint fillTurbo (n : nat) (i : Z) (st : list num * ColorRGBA) : list num * ColorRGBA :=
  match n with
  | O => st
  | S n' => fillTurbo n' (i + 1) (fillTurboEntry i st)
  end.

Definition buildTurboLookup : list num :=
  let zero := ofZ 0 in
  fst (fillTurbo (Z.to_nat TURBO_LOOKUP_SIZE) 0
         (Float32Array_new (TURBO_LOOKUP_SIZE * 3), rgba zero zero zero zero)).

(** The number [turboLinearCached] uses as the offset of the entry for [pct]. *)
Definition turboOffset (pct : num) : num :=
  mul (Math_trunc (mul pct (ofZ (TURBO_LOOKUP_SIZE - 1)))) (ofZ 3).

Definition turboLinearCached (output : ColorRGBA) (pct : num) (gl : Globals)
  : Globals * ColorRGBA :=
  let gl :=
    match TurboLookup gl with
    | None => setTurboLookup buildTurboLookup gl
    | Some _ => gl
    end in
  let lookup := default [] (TurboLookup gl) in
  let offset := turboOffset pct in
  (gl, {| r := Float32Array_get lookup (add offset (ofZ 0));
          g := Float32Array_get lookup (add offset (ofZ 1));
          b := Float32Array_get lookup (add offset (ofZ 2));
          a := Num (ofZ 1) |}).

(** The normalisation shared by the gradient, turbo and rainbow closures:
    [Math.max(0, Math.min((colorValue - minValue) / valueDelta, 1))]. *)
Definition fraction (colorValue minValue valueDelta : num) : num :=
  Math_max (ofZ 0) (Math_min (div (sub colorValue minValue) valueDelta) (ofZ 1)).

(** [getColorConverter]. The [switch] compares strings, so the function is
    defined on every settings value, also outside the declared type. The
    closures read [settings.explicitAlpha] when they run; the caller's
    settings object is taken as a value, not written to between the
    construction and the use of a converter. *)
Definition getColorConverter (settings : ColorModeSettings) (minValue maxValue : num)
    (gl : Globals) : Globals * Completion :=
  if (colorMode settings =? "flat")%string then
    let '(gl, flatColor) := stringToRgba TempColor1 (flatColor settings) gl in
    let gl := rgbaToLinear flatColor flatColor gl in
    (gl, Returned (fun output _colorValue gl' =>
       (gl', {| r := r (deref gl' flatColor);
                g := g (deref gl' flatColor);
                b := b (deref gl' flatColor);
                a := a (deref gl' flatColor) |})))
  else if (colorMode settings =? "gradient")%string then
    let valueDelta := Math_max (sub maxValue minValue) Number_EPSILON in
    let '(gl, minColor) := stringToRgba TempColor1 (fst (gradient settings)) gl in
    let '(gl, maxColor) := stringToRgba TempColor2 (snd (gradient settings)) gl in
    let gl := rgbaToLinear minColor minColor gl in
    let gl := rgbaToLinear maxColor maxColor gl in
    (gl, Returned (fun output colorValue gl' =>
       let frac := fraction colorValue minValue valueDelta in
       (gl', rgbaGradient output (deref gl' minColor) (deref gl' maxColor) frac)))
  else if (colorMode settings =? "colormap")%string then
    let valueDelta := Math_max (sub maxValue minValue) Number_EPSILON in
    if (colorMap settings =? "turbo")%string then
      (gl, Returned (fun output colorValue gl' =>
         let frac := fraction colorValue minValue valueDelta in
         let '(gl', output) := turboLinearCached output frac gl' in
         (gl', setAlpha output (Num (explicitAlpha settings)))))
    else if (colorMap settings =? "rainbow")%string then
      (gl, Returned (fun output colorValue gl' =>
         let frac := fraction colorValue minValue valueDelta in
         let output := rainbowLinear output frac in
         (gl', setAlpha output (Num (explicitAlpha settings)))))
    else if (colorMap settings =? "bluegold")%string then
      (gl, Returned (fun output colorValue gl' =>
         let output := bluegoldLookup output colorValue in
         (gl', setAlpha output (Num (explicitAlpha settings)))))
    else (gl, Thrown ("Unrecognized color map: " ++ colorMap settings)%string)
  else if (colorMode settings =? "rgb")%string then
    (gl, Returned (fun output colorValue gl' =>
       let output := getColorBgra output colorValue in
       (gl', setAlpha output (Num (explicitAlpha settings)))))
  else if (colorMode settings =? "rgba")%string then
    (gl, Returned (fun output colorValue gl' => (gl', getColorBgra output colorValue)))
  else (gl, ReturnedUndefined).

(** [colorHasTransparency]: [None] is the fall off the end of the [switch]. *)
Definition colorHasTransparency (settings : ColorModeSettings) (gl : Globals)
  : Globals * option bool :=
  if (colorMode settings =? "flat")%string then
    let '(gl, c) := stringToRgba TempColor (flatColor settings) gl in
    (gl, Some (ltb (toNumber (a (deref gl c))) (ofZ 1)))
  else if (colorMode settings =? "gradient")%string then
    let '(gl, c) := stringToRgba TempColor (fst (gradient settings)) gl in
    if ltb (toNumber (a (deref gl c))) (ofZ 1) then (gl, Some true)
    else
      let '(gl, c) := stringToRgba TempColor (snd (gradient settings)) gl in
      (gl, Some (ltb (toNumber (a (deref gl c))) (ofZ 1)))
  else if (colorMode settings =? "colormap")%string
       || (colorMode settings =? "rgb")%string then
    (gl, Some (ltb (explicitAlpha settings) (ofZ 1)))
  else if (colorMode settings =? "rgba")%string
       || (colorMode settings =? "rgba-fields")%string then
    (gl, Some true)
  else (gl, None).

End ColorMode.

(** ** Field auto-selection *)

(** [String.prototype.toLowerCase] on the code units A-Z. Every comparison
    below is against an ASCII literal, and no other code unit lower-cases to
    one of the letters of those literals. *)
Definition lowerAscii (c : ascii) : ascii :=
  let n := nat_of_ascii c in
  if ((65 <=? n) && (n <=? 90))%nat then ascii_of_nat (n + 32) else c.

Fixpoint toLowerCase (s : string) : string :=
  match s with
  | EmptyString => EmptyString
  | String c s' => String (lowerAscii c) (toLowerCase s')
  end.

Definition RGBA_PACKED_FIELDS : list string := ["rgb"; "rgba"]%string.
Definition INTENSITY_FIELDS : list string := ["intensity"; "i"]%string.

(** [set.has(x)] *)
Definition has (set : list string) (x : string) : bool :=
  existsb (String.eqb x) set.

(** Truthiness of a [string | undefined]: [undefined] and the empty string
    are falsy. *)
Definition truthy (v : option string) : bool :=
  match v with
  | None => false
  | Some s => negb (s =? "")%string
  end.

Definition bestColorByField (fields : list string) (supportsPackedRgbModes : bool)
  : option string :=
  let packed :=
    if supportsPackedRgbModes
    then find (fun field => has RGBA_PACKED_FIELDS (toLowerCase field)) fields
    else None in
  match packed with
  | Some field => Some field
  | None =>
      match find (fun field => has INTENSITY_FIELDS (toLowerCase field)) fields with
      | Some field => Some field
      | None =>
          match find (fun field => (field =? "z")%string) fields with
          | Some field => Some field
          | None => head fields
          end
      end
  end.

Definition hasSeparateRgbaFields (fields : list string) : bool :=
  let '(r, g, b, a) :=
    fold_left
      (fun '(r, g, b, a) field =>
         if (field =? "red")%string then (true, g, b, a)
         else if (field =? "green")%string then (r, true, b, a)
         else if (field =? "blue")%string then (r, g, true, a)
         else if (field =? "alpha")%string then (r, g, b, true)
         else (r, g, b, a))
      fields (false, false, false, false) in
  r && g && b && a.

Definition setColorField (v : string) (s : ColorModeSettings) : ColorModeSettings :=
  {| colorMode := colorMode s; flatColor := flatColor s; colorField := Some v;
     gradient := gradient s; colorMap := colorMap s; explicitAlpha := explicitAlpha s;
     minValue := minValue s; maxValue := maxValue s |}.

Definition setColorMode (v : string) (s : ColorModeSettings) : ColorModeSettings :=
  {| colorMode := v; flatColor := flatColor s; colorField := colorField s;
     gradient := gradient s; colorMap := colorMap s; explicitAlpha := explicitAlpha s;
     minValue := minValue s; maxValue := maxValue s |}.

Definition setColorMap (v : string) (s : ColorModeSettings) : ColorModeSettings :=
  {| colorMode := colorMode s; flatColor := flatColor s; colorField := colorField s;
     gradient := gradient s; colorMap := v; explicitAlpha := explicitAlpha s;
     minValue := minValue s; maxValue := maxValue s |}.

(** [autoSelectColorSettings]: the result is the contents of [output] when
    the call returns. [supportsRgbaFieldsMode] is optional in the source.
    Past the [!bestField] test the best field is a string, so the [None]
    branch of the [match] is never taken. *)
Definition autoSelectColorSettings (output : ColorModeSettings) (fields : list string)
    (supportsPackedRgbModes : bool) (supportsRgbaFieldsMode : option bool)
  : ColorModeSettings :=
  let bestField := bestColorByField fields supportsPackedRgbModes in
  if negb (truthy bestField) then output
  else
    match bestField with
    | None => output
    | Some bestField =>
        let output := setColorField bestField output in
        let output :=
          if (toLowerCase bestField =? "rgb")%string then setColorMode "rgb" output
          else if (toLowerCase bestField =? "rgba")%string then setColorMode "rgba" output
          else setColorMap "turbo" (setColorMode "colormap" output) in
        match supportsRgbaFieldsMode with
        | Some true =>
            if hasSeparateRgbaFields fields then setColorMode "rgba-fields" output
            else output
        | _ => output
        end
    end.

(** ** One implementation of the collaborators

    A concrete parser for the hexadecimal notations [#rrggbb] and
    [#rrggbbaa], the transfer function and the interpolation as the
    specification gives them, used to run the module on concrete inputs. *)

Module Reference.

Definition hexDigit (c : ascii) : option Z :=
  let n := Z.of_nat (nat_of_ascii c) in
  if (48 <=? n) && (n <=? 57) then Some (n - 48)
  else if (97 <=? n) && (n <=? 102) then Some (n - 87)
  else if (65 <=? n) && (n <=? 70) then Some (n - 55)
  else None.

Fixpoint hexBytes (s : string) : option (list Z) :=
  match s with
  | EmptyString => Some []
  | String hi (String lo rest) =>
      match hexDigit hi, hexDigit lo, hexBytes rest with
      | Some h, Some l, Some bytes => Some (16 * h + l :: bytes)
      | _, _, _ => None
      end
  | String _ EmptyString => None
  end.

(** Modelled from the spec: [stringToRgba] parses a CSS-style colour string
    into sRGB channels in [0,1]; of the CSS notations only the hexadecimal
    ones are covered here, and any other string leaves the output as it
    was. *)
Definition stringToRgbaWrites (old : ColorRGBA) (s : string) : ColorRGBA :=
  match s with
  | String "#" digits =>
      match hexBytes digits with
      | Some [cr; cg; cb] =>
          rgba (div (ofZ cr) (ofZ 255)) (div (ofZ cg) (ofZ 255))
               (div (ofZ cb) (ofZ 255)) (ofZ 1)
      | Some [cr; cg; cb; ca] =>
          rgba (div (ofZ cr) (ofZ 255)) (div (ofZ cg) (ofZ 255))
               (div (ofZ cb) (ofZ 255)) (div (ofZ ca) (ofZ 255))
      | _ => old
      end
  | _ => old
  end.

(** [Math.pow] is implementation-approximated; here [x ** 2.4] is computed
    as [x² · ⁵√(x²)], the fifth root by Newton's iteration from 1. *)
Fixpoint fifthRoot (n : nat) (x y : num) : num :=
  match n with
  | O => y
  | S n' =>
      let y4 := mul (mul y y) (mul y y) in
      fifthRoot n' x (div (add (mul (ofZ 4) y) (div x y4)) (ofZ 5))
  end.

Definition pow24 (x : num) : num :=
  let x2 := mul x x in mul x2 (fifthRoot 64 x2 (ofZ 1)).

(** Modelled from the spec: [linear = c ≤ 0.04045 ? c/12.92 :
    ((c+0.055)/1.055)^2.4]. *)
Definition SRGBToLinear (c : num) : num :=
  if leb c (dec 4045 5) then div c (dec 1292 2)
  else pow24 (div (add c (dec 55 3)) (dec 1055 3)).

(** Modelled from the spec: [clamp] of [../math] bounds a value to
    [lo, hi]. *)
Definition clamp (x lo hi : num) : num := Math_max lo (Math_min hi x).

(** Linear interpolation [x + (y - x) t]. *)
Definition lerp (x y t : num) : num := add x (mul (sub y x) t).

(** Modelled from the spec: [rgbaGradient(out, colorA, colorB, frac)] is the
    linear interpolation of each channel, alpha included. *)
Definition rgbaGradient (output ca cb : ColorRGBA) (t : num) : ColorRGBA :=
  rgba (lerp (toNumber (r ca)) (toNumber (r cb)) t)
       (lerp (toNumber (g ca)) (toNumber (g cb)) t)
       (lerp (toNumber (b ca)) (toNumber (b cb)) t)
       (lerp (toNumber (a ca)) (toNumber (a cb)) t).

Definition getColorConverter :=
  getColorConverter stringToRgbaWrites SRGBToLinear rgbaGradient clamp.

Definition colorHasTransparency := colorHasTransparency stringToRgbaWrites.

Definition turboLinearCached := turboLinearCached SRGBToLinear clamp.

(** Runs a completion's converter, when there is one. *)
Definition run (c : Globals * Completion) (output : ColorRGBA) (colorValue : num)
  : option ColorRGBA :=
  match snd c with
  | Returned convert => Some (snd (convert output colorValue (fst c)))
  | _ => None
  end.

End Reference.

(** ** Vocabulary of the statements *)

(** The double of a positive integer of at most 53 bits, written out. *)
Definition normal (p : positive) : num :=
  match 53 - Zpos (digits2_pos p) with
  | Zpos j => S754_finite false (Pos.iter xO p j) (Zneg j)
  | _ => S754_finite false p 0
  end.

(** [x] is a number (not NaN) that carries the sign [s]. *)
Definition signIs (s : bool) (x : num) : Prop :=
  match x with
  | S754_zero s' | S754_infinity s' | S754_finite s' _ _ => s' = s
  | S754_nan => False
  end.

(** [v] is a double: its mantissa and exponent are in canonical form. *)
Definition isDouble (v : num) : Prop := valid_binary prec emax v = true.

(** Packing four bytes as [0xAARRGGBB], and the unpacked colour expected
    from them. *)
Definition isByte (x : Z) : Prop := 0 <= x <= 255.

Definition pack (ca cr cg cb : Z) : Z := ca * 2 ^ 24 + cr * 2 ^ 16 + cg * 2 ^ 8 + cb.

Definition byteOf (i : Z) (n : Z) : Z := (n / 2 ^ (8 * i)) mod 2 ^ 8.

Definition bytesOver255 (ca cr cg cb : Z) : ColorRGBA :=
  rgba (div (ofZ cr) (ofZ 255)) (div (ofZ cg) (ofZ 255))
       (div (ofZ cb) (ofZ 255)) (div (ofZ ca) (ofZ 255)).

(** A completion that is an error. *)
Definition failsFast (c : Completion) : Prop := exists message, c = Thrown message.

(** Channel [c] (0, 1, 2 for r, g, b) of the analytic turbo colour at
    [i / 65534], as a [Float32Array] element holds it. *)
Definition turboEntry (SRGBToLinear : num -> num) (clamp : num -> num -> num -> num)
    (i c : Z) : num :=
  let zero := ofZ 0 in
  let color :=
    turboLinear SRGBToLinear clamp (rgba zero zero zero zero) (div (ofZ i) (ofZ 65534)) in
  fround (toNumber ((if c =? 0 then r else if c =? 1 then g else b) color)).

(** The offset [turboLinearCached] would use if it rounded, in the words of
    the specification: [round(t × (N-1))], times the three channels. *)
Definition turboOffsetRounded (pct : num) : num :=
  mul (Math_round (mul pct (ofZ (TURBO_LOOKUP_SIZE - 1)))) (ofZ 3).

(** The priority order of the field auto-selection, in the words of the
    specification. [Named names field] matches case-insensitively. *)
Definition Named (names : list string) (field : string) : Prop :=
  In (toLowerCase field) names.

Definition firstWith (P : string -> Prop) (fields : list string) (field : string) : Prop :=
  exists before after,
    fields = before ++ field :: after /\ P field /\ forall x, In x before -> ~ P x.

Definition noneWith (P : string -> Prop) (fields : list string) : Prop :=
  forall x, In x fields -> ~ P x.

Inductive Chosen (fields : list string) (supportsPackedRgbModes : bool) : string -> Prop :=
| ChosenPacked field :
    supportsPackedRgbModes = true ->
    firstWith (Named ["rgb"; "rgba"]%string) fields field ->
    Chosen fields supportsPackedRgbModes field
| ChosenIntensity field :
    (supportsPackedRgbModes = true -> noneWith (Named ["rgb"; "rgba"]%string) fields) ->
    firstWith (Named ["intensity"; "i"]%string) fields field ->
    Chosen fields supportsPackedRgbModes field
| ChosenZ :
    (supportsPackedRgbModes = true -> noneWith (Named ["rgb"; "rgba"]%string) fields) ->
    noneWith (Named ["intensity"; "i"]%string) fields ->
    In "z"%string fields ->
    Chosen fields supportsPackedRgbModes "z"%string
| ChosenFirst field rest :
    (supportsPackedRgbModes = true -> noneWith (Named ["rgb"; "rgba"]%string) fields) ->
    noneWith (Named ["intensity"; "i"]%string) fields ->
    ~ In "z"%string fields ->
    fields = field :: rest ->
    Chosen fields supportsPackedRgbModes field.

(** The four separate channel fields are all present, under their exact
    names. *)
Definition SeparateRgbaFields (fields : list string) : Prop :=
  In "red"%string fields /\ In "green"%string fields /\
  In "blue"%string fields /\ In "alpha"%string fields.

(** Example inputs. *)
Definition settingsOf (mode flat : string) (grad : string * string) (map : string)
    (alpha : num) : ColorModeSettings :=
  {| colorMode := mode; flatColor := flat; colorField := None; gradient := grad;
     colorMap := map; explicitAlpha := alpha; minValue := None; maxValue := None |}.

Definition exampleSettings (mode : string) : ColorModeSettings :=
  settingsOf mode "#ff000080" ("#000000ff", "#ffffff00")%string "bluegold" (dec 5 1).

Definition someColor : ColorRGBA := rgba (dec 1 1) (dec 2 1) (dec 3 1) (dec 4 1).

(** ** The settings-tree fields of the colour mode *)

Definition NEEDS_MIN_MAX : list string := ["gradient"; "colormap"]%string.

(** [array.includes(x)] on strings. *)
Definition includes (array : list string) (x : string) : bool :=
  existsb (String.eqb x) array.

(** A [Partial<Settings>]: every property may be absent. *)
Module Config.
Record t : Type := {
  colorMode : option string;
  flatColor : option string;
  colorField : option string;
  gradient : option (string * string);
  colorMap : option string;
  explicitAlpha : option num;
  minValue : option num;
  maxValue : option num
}.
End Config.

Record Modifiers : Type := {
  supportsPackedRgbModes : bool;
  supportsRgbaFieldsMode : bool;
  hideFlatColor : option bool;
  hideExplicitAlpha : option bool
}.

(** An entry [{ label, value }] of a select control. *)
Record SelectOption : Type := { label : string; optionValue : string }.

(** A settings-tree field, by its [input] kind. A property the object
    literal does not set is [None]. *)
Inductive SettingsTreeField : Type :=
| SelectInput (fieldLabel : string) (value : option string) (options : list SelectOption)
| RgbaInput (fieldLabel : string) (value : string)
| GradientInput (fieldLabel : string) (value : string * string)
| NumberInput (fieldLabel : string) (placeholder : string) (precision : Z)
    (step min max : option num) (value : option num).

(** A [SettingsTreeFields] object: its own properties in insertion order. *)
Definition SettingsTreeFields : Type := list (string * SettingsTreeField).

(** [fields.key = field]: replaces the property in place when the object has
    it, and appends it otherwise. *)
Fixpoint setProperty (key : string) (field : SettingsTreeField)
    (fields : SettingsTreeFields) : SettingsTreeFields :=
  match fields with
  | [] => [(key, field)]
  | (k, f) :: rest =>
      if (k =? key)%string then (key, field) :: rest
      else (k, f) :: setProperty key field rest
  end.

Definition getProperty (key : string) (fields : SettingsTreeFields)
  : option SettingsTreeField :=
  option_map snd (find (fun entry => (fst entry =? key)%string) fields).

Definition keys (fields : SettingsTreeFields) : list string := map fst fields.

(** [x === true] on an optional boolean. *)
Definition isTrue (x : option bool) : bool :=
  match x with Some true => true | _ => false end.

Section SettingsFields.

(** The translation function [t] of i18next. *)
Variable t : string -> string.

(** The [colorModeOptions] array, once every [push] is done. *)
Definition colorModeOptions (msgFields : option (list string)) (modifiers : Modifiers)
  : list SelectOption :=
  let colorModeOptions :=
    [ {| label := t "threeDee:colorModeColorMap"; optionValue := "colormap" |};
      {| label := t "threeDee:gradient"; optionValue := "gradient" |} ] in
  let colorModeOptions :=
    if negb (isTrue (hideFlatColor modifiers))
    then colorModeOptions
           ++ [ {| label := t "threeDee:colorModeFlat"; optionValue := "flat" |} ]
    else colorModeOptions in
  match msgFields with
  | Some ((_ :: _) as msgFields) =>
      let colorModeOptions :=
        if supportsPackedRgbModes modifiers
        then colorModeOptions
               ++ [ {| label := t "threeDee:colorModeBgrPacked"; optionValue := "rgb" |};
                    {| label := t "threeDee:colorModeBgraPacked"; optionValue := "rgba" |} ]
        else colorModeOptions in
      if supportsRgbaFieldsMode modifiers && hasSeparateRgbaFields msgFields
      then colorModeOptions
             ++ [ {| label := t "threeDee:colorModeRgbaSeparateFields";
                     optionValue := "rgba-fields" |} ]
      else colorModeOptions
  | _ => colorModeOptions
  end.

Definition colorModeSettingsFields (msgFields : option (list string)) (config : Config.t)
    (defaultGradient : string * string) (modifiers : Modifiers) : SettingsTreeFields :=
  let colorMode :=
    match Config.colorMode config with
    | Some mode => mode
    | None => if isTrue (hideFlatColor modifiers) then "gradient" else "flat"
    end%string in
  let flatColor := default "#ffffff"%string (Config.flatColor config) in
  let gradient := Config.gradient config in
  let colorMap := default "turbo"%string (Config.colorMap config) in
  let explicitAlpha := default (ofZ 1) (Config.explicitAlpha config) in
  let minValue := Config.minValue config in
  let maxValue := Config.maxValue config in
  let fields : SettingsTreeFields := [] in
  let colorModeOptions := colorModeOptions msgFields modifiers in
  let fields :=
    setProperty "colorMode"
      (SelectInput (t "threeDee:colorMode") (Some colorMode) colorModeOptions) fields in
  if (colorMode =? "flat")%string then
    setProperty "flatColor" (RgbaInput (t "threeDee:flatColor") flatColor) fields
  else if negb (colorMode =? "rgba-fields")%string then
    let fields :=
      match msgFields with
      | Some msgFields =>
          let colorFieldOptions :=
            map (fun field => {| label := field; optionValue := field |}) msgFields in
          let colorField :=
            match Config.colorField config with
            | Some field => Some field
            | None => bestColorByField msgFields (supportsPackedRgbModes modifiers)
            end in
          setProperty "colorField"
            (SelectInput (t "threeDee:colorBy") colorField colorFieldOptions) fields
      | None => fields
      end in
    let fields :=
      if (colorMode =? "gradient")%string then
        setProperty "gradient"
          (GradientInput (t "threeDee:gradient") (default defaultGradient gradient)) fields
      else if (colorMode =? "colormap")%string then
        setProperty "colorMap"
          (SelectInput (t "threeDee:colorModeColorMap") (Some colorMap)
             [ {| label := "Turbo"; optionValue := "turbo" |};
               {| label := "Rainbow"; optionValue := "rainbow" |};
               {| label := "Bluegold"; optionValue := "bluegold" |} ]) fields
      else fields in
    let fields :=
      if negb (isTrue (hideExplicitAlpha modifiers))
         && ((colorMode =? "colormap")%string || (colorMode =? "rgb")%string)
      then
        setProperty "explicitAlpha"
          (NumberInput (t "threeDee:opacity") "1" 3 (Some (dec 1 1)) (Some (ofZ 0))
             (Some (ofZ 1)) (Some explicitAlpha)) fields
      else fields in
    if includes NEEDS_MIN_MAX colorMode then
      let fields :=
        setProperty "minValue"
          (NumberInput (t "threeDee:valueMin") "auto" 4 None None None minValue) fields in
      setProperty "maxValue"
        (NumberInput (t "threeDee:valueMax") "auto" 4 None None None maxValue) fields
    else fields
  else fields.

End SettingsFields.

(** The values a select control offers. *)
Definition optionValues (field : option SettingsTreeField) : list string :=
  match field with
  | Some (SelectInput _ _ options) => map optionValue options
  | _ => []
  end.

(** The value a select control shows. *)
Definition selectedValue (field : option SettingsTreeField) : option string :=
  match field with
  | Some (SelectInput _ value _) => value
  | _ => None
  end.

(** The colour mode the controls are built for: the configured one, or the
    default. *)
Definition effectiveColorMode (config : Config.t) (modifiers : Modifiers) : string :=
  match Config.colorMode config with
  | Some mode => mode
  | None => if isTrue (hideFlatColor modifiers) then "gradient"%string else "flat"%string
  end.

(** A configuration that holds every property of the given settings. *)
Definition configOf (settings : ColorModeSettings) : Config.t :=
  {| Config.colorMode := Some (colorMode settings);
     Config.flatColor := Some (flatColor settings);
     Config.colorField := colorField settings;
     Config.gradient := Some (gradient settings);
     Config.colorMap := Some (colorMap settings);
     Config.explicitAlpha := Some (explicitAlpha settings);
     Config.minValue := minValue settings;
     Config.maxValue := maxValue settings |}.

(** A number within [0, 1], and a channel that holds one. *)
Definition inUnitInterval (x : num) : Prop := leb (ofZ 0) x = true /\ leb x (ofZ 1) = true.

Definition unitChannel (v : value) : Prop := exists x, v = Num x /\ inUnitInterval x.

Definition unitColor (c : ColorRGBA) : Prop :=
  unitChannel (r c) /\ unitChannel (g c) /\ unitChannel (b c) /\ unitChannel (a c).

(** The store apart from [TurboLookup]. *)
Definition sameColors (gl gl' : Globals) : Prop :=
  tempColor1 gl' = tempColor1 gl /\ tempColor2 gl' = tempColor2 gl /\
  tempColor gl' = tempColor gl.

(** * Properties *)

(** ** Integers as doubles *)

Lemma digits2_pos_size p : digits2_pos p = Pos.size p.
Proof. induction p; simpl; congruence. Qed.

Lemma digits2_pos_bounds p :
  2 ^ (Zpos (digits2_pos p) - 1) <= Zpos p < 2 ^ Zpos (digits2_pos p).
Proof.
  rewrite digits2_pos_size. split.
  - pose proof (Pos.size_le p) as H.
    assert (Zpos (2 ^ Pos.size p) <= Zpos p~0) by (apply Pos2Z.pos_le_pos; exact H).
    rewrite Pos2Z.inj_pow in H0.
    replace (Zpos (Pos.size p)) with (Z.succ (Zpos (Pos.size p) - 1)) in H0 by lia.
    rewrite Z.pow_succ_r in H0 by lia. lia.
  - pose proof (Pos.size_gt p) as H.
    rewrite <- Pos2Z.inj_pow. apply Pos2Z.pos_lt_pos. exact H.
Qed.

Lemma iter_xO_spec p j : Zpos (Pos.iter xO p j) = Zpos p * 2 ^ Zpos j.
Proof.
  induction j using Pos.peano_ind.
  - simpl. lia.
  - rewrite Pos.iter_succ, Pos2Z.inj_xO, IHj, Pos2Z.inj_succ, Z.pow_succ_r by lia. lia.
Qed.

Lemma digits2_pos_shift p j :
  Zpos (digits2_pos (Pos.iter xO p j)) = Zpos (digits2_pos p) + Zpos j.
Proof.
  induction j using Pos.peano_ind.
  - simpl. lia.
  - rewrite Pos.iter_succ. simpl. lia.
Qed.

Lemma fexp_canonical d e :
  d = 53 -> -1074 <= e -> fexp prec emax (d + e) = e.
Proof. intros -> He. unfold fexp, emin, prec, emax. lia. Qed.

Lemma binary_round_aux_canonical s m e :
  Zpos (digits2_pos m) = 53 -> -1074 <= e <= 971 ->
  binary_round_aux prec emax s (Zpos m) e loc_Exact = S754_finite s m e.
Proof.
  intros Hd He. unfold binary_round_aux, shr_fexp.
  change (Zdigits2 (Zpos m)) with (Zpos (digits2_pos m)).
  rewrite (fexp_canonical _ e Hd) by lia. rewrite Z.sub_diag.
  change (shr (shr_record_of_loc (Zpos m) loc_Exact) e 0)
    with (shr_record_of_loc (Zpos m) loc_Exact, e).
  cbv beta iota.
  change (round_nearest_even _ _) with (Zpos m).
  change (Zdigits2 (Zpos m)) with (Zpos (digits2_pos m)).
  rewrite (fexp_canonical _ e Hd) by lia. rewrite Z.sub_diag.
  change (shr (shr_record_of_loc (Zpos m) loc_Exact) e 0)
    with (shr_record_of_loc (Zpos m) loc_Exact, e).
  cbv beta iota. change (shr_m _) with (Zpos m). cbv beta iota.
  replace (e <=? emax - prec) with true; [reflexivity |].
  symmetry. apply Z.leb_le. unfold emax, prec. lia.
Qed.

Lemma ofZ_pos p : Zpos (digits2_pos p) <= 53 -> ofZ (Zpos p) = normal p.
Proof.
  intros Hd. unfold ofZ, normal, binary_normalize, binary_round, shl_align.
  assert (Hf : fexp prec emax (Zpos (digits2_pos p) + 0) - 0
               = - (53 - Zpos (digits2_pos p))).
  { unfold fexp, emin, prec, emax. lia. }
  rewrite Hf.
  destruct (53 - Zpos (digits2_pos p)) as [|j|j] eqn:Hj; try lia.
  - change (- 0) with 0. cbv beta iota.
    apply binary_round_aux_canonical; lia.
  - change (- Zpos j) with (Zneg j). cbv beta iota.
    assert (Hf' : fexp prec emax (Zpos (digits2_pos p) + 0) = Zneg j).
    { unfold fexp, emin, prec, emax. lia. }
    rewrite Hf'.
    apply binary_round_aux_canonical.
    + rewrite digits2_pos_shift. lia.
    + pose proof (Pos2Z.is_pos (digits2_pos p)). lia.
Qed.

Lemma normal_value p :
  Zpos (digits2_pos p) <= 53 ->
  exists j, 0 <= j <= 52 /\ Zpos (digits2_pos p) = 53 - j /\
            normal p = S754_finite false (Z.to_pos (Zpos p * 2 ^ j)) (- j).
Proof.
  intros Hd. unfold normal.
  pose proof (Pos2Z.is_pos (digits2_pos p)).
  destruct (53 - Zpos (digits2_pos p)) as [|j|j] eqn:Hj; try lia.
  - exists 0. repeat split; try lia. simpl. rewrite Pos.mul_1_r. reflexivity.
  - exists (Zpos j). repeat split; try lia.
    rewrite <- iter_xO_spec. reflexivity.
Qed.

Lemma ToUint32_ofZ n : 0 <= n < 2 ^ 32 -> ToUint32 (ofZ n) = n.
Proof.
  intros Hn. destruct n as [|p|p]; try lia; [reflexivity |].
  assert (Hd : Zpos (digits2_pos p) <= 32).
  { pose proof (digits2_pos_bounds p) as [Blo _].
    destruct (Z_lt_le_dec 32 (Zpos (digits2_pos p))); [| lia].
    assert (2 ^ 32 <= 2 ^ (Zpos (digits2_pos p) - 1)) by (apply Z.pow_le_mono_r; lia).
    lia. }
  rewrite ofZ_pos by lia.
  destruct (normal_value p) as (j & Hj & Hdj & ->); [lia |].
  assert (0 < 2 ^ j) by (apply Z.pow_pos_nonneg; lia).
  unfold ToUint32, signed, cond_Zopp.
  rewrite Z2Pos.id by lia.
  destruct (0 <=? - j) eqn:E.
  - apply Z.leb_le in E. assert (j = 0) by lia. subst j.
    simpl. rewrite Z.mul_1_r. change (Z.pow_pos 2 32) with (2^32). rewrite Z.mod_small; lia.
  - rewrite Z.opp_involutive. rewrite Z.quot_mul by lia. apply Z.mod_small. lia.
Qed.

Lemma sub_zero_r v : sub v (ofZ 0) = v.
Proof. destruct v as [[|]|[|]| |[|] m e]; reflexivity. Qed.

Lemma SFcompare_antisym x y :
  SFcompare y x = option_map CompOpp (SFcompare x y).
Proof.
  destruct x as [sx|sx| |sx mx ex], y as [sy|sy| |sy my ey]; simpl;
    try destruct sx; try destruct sy; try reflexivity;
    rewrite (Z.compare_antisym ex ey);
    destruct (ex ?= ey); simpl; try reflexivity;
    rewrite (Pos.compare_cont_antisym mx my Eq); simpl;
    try rewrite CompOpp_involutive; reflexivity.
Qed.

Lemma Math_min_above x :
  leb (ofZ 1) x = true -> Math_min x (ofZ 1) = ofZ 1.
Proof.
  unfold leb, SFleb, Math_min. rewrite (SFcompare_antisym (ofZ 1) x).
  destruct (SFcompare (ofZ 1) x) as [[| |]|] eqn:E; simpl; try discriminate; intros _.
  - destruct x as [[|]| | |]; try reflexivity; discriminate E.
  - reflexivity.
Qed.

Lemma binary_round_aux_even s m e :
  Zpos (digits2_pos m) = 53 -> -1075 <= e ->
  binary_round_aux prec emax s (Zpos m~0) e loc_Exact
  = if e + 1 <=? 971 then S754_finite s m (e + 1) else S754_infinity s.
Proof.
  intros Hd He. unfold binary_round_aux, shr_fexp.
  change (Zdigits2 (Zpos m~0)) with (Zpos (Pos.succ (digits2_pos m))).
  assert (H1 : fexp prec emax (Zpos (Pos.succ (digits2_pos m)) + e) - e = 1).
  { unfold fexp, emin, prec, emax. lia. }
  rewrite H1.
  change (shr (shr_record_of_loc (Zpos m~0) loc_Exact) e 1)
    with (shr_record_of_loc (Zpos m) loc_Exact, e + 1).
  cbv beta iota.
  change (round_nearest_even _ _) with (Zpos m).
  change (Zdigits2 (Zpos m)) with (Zpos (digits2_pos m)).
  rewrite (fexp_canonical _ (e + 1) Hd) by lia. rewrite Z.sub_diag.
  change (shr (shr_record_of_loc (Zpos m) loc_Exact) (e + 1) 0)
    with (shr_record_of_loc (Zpos m) loc_Exact, e + 1).
  cbv beta iota. change (shr_m _) with (Zpos m). cbv beta iota.
  reflexivity.
Qed.

Lemma Number_EPSILON_eq : Number_EPSILON = S754_finite false 4503599627370496 (-104).
Proof. reflexivity. Qed.

Lemma div_EPSILON m e :
  Zpos (digits2_pos m) = 53 -> -1125 <= e ->
  div (S754_finite false m e) Number_EPSILON
  = if e + 52 <=? 971 then S754_finite false m (e + 52) else S754_infinity false.
Proof.
  intros Hd He. rewrite Number_EPSILON_eq. unfold div, SFdiv, SFdiv_core_binary.
  change (Zdigits2 (Zpos m)) with (Zpos (digits2_pos m)). rewrite Hd.
  change (Zdigits2 (Zpos 4503599627370496)) with 53.
  assert (He' : Z.min (fexp prec emax (53 + e - (53 + -104))) (e - -104) = e + 51).
  { unfold fexp, emin, prec, emax. lia. }
  rewrite He'.
  replace (e - -104 - (e + 51)) with 53 by lia.
  cbv beta iota zeta.
  rewrite Z.shiftl_mul_pow2 by lia.
  pose proof (Z_div_mod (Zpos m * 2 ^ 53) (Zpos 4503599627370496) eq_refl) as Hdm.
  destruct (Z.div_eucl (Zpos m * 2 ^ 53) (Zpos 4503599627370496)) as [q rm].
  destruct Hdm as [Heq Hr].
  change (2 ^ 53) with 9007199254740992 in Heq.
  assert (rm = 0) by lia. assert (q = Zpos m~0) by lia. subst q rm.
  change (new_location (Zpos 4503599627370496) 0) with loc_Exact.
  change (xorb false false) with false.
  rewrite binary_round_aux_even by lia.
  replace (e + 51 + 1) with (e + 52) by lia. reflexivity.
Qed.

Lemma fraction_above v :
  isDouble v ->
  leb Number_EPSILON v = true ->
  fraction v (ofZ 0) Number_EPSILON = ofZ 1.
Proof.
  intros Hv Hle. unfold fraction. rewrite sub_zero_r.
  rewrite Math_min_above; [reflexivity |].
  destruct v as [s|s| |s m e].
  - discriminate Hle.
  - destruct s; [discriminate Hle | reflexivity].
  - discriminate Hle.
  - destruct s; [discriminate Hle |].
    rewrite Number_EPSILON_eq in Hle. unfold leb, SFleb, SFcompare in Hle.
    cbv beta iota in Hle.
    unfold isDouble in Hv. cbn [valid_binary] in Hv.
    unfold bounded, canonical_mantissa, fexp, emin, prec, emax in Hv.
    apply andb_true_iff in Hv as [Hc Hb]. apply Z.eqb_eq in Hc. apply Z.leb_le in Hb.
    assert (He : -104 <= e).
    { revert Hle. destruct (Z.compare_spec (-104) e); try lia; discriminate. }
    clear Hle.
    assert (Hd : Zpos (digits2_pos m) = 53) by lia.
    rewrite div_EPSILON by lia.
    destruct (e + 52 <=? 971); [| reflexivity].
    change (ofZ 1) with (S754_finite false 4503599627370496 (-52)).
    unfold leb, SFleb, SFcompare. cbv beta iota.
    destruct (Z.compare_spec (-52) (e + 52)); try reflexivity; try lia.
    pose proof (digits2_pos_bounds m) as [Blo _]. rewrite Hd in Blo.
    change (2 ^ (53 - 1)) with (Zpos 4503599627370496) in Blo.
    change (Pos.compare_cont Eq 4503599627370496 m) with (4503599627370496 ?= m)%positive.
    destruct (Pos.compare_spec 4503599627370496 m) as [E|E|E]; try reflexivity.
    exfalso. apply Pos2Z.pos_lt_pos in E. clear - E Blo. lia.
Qed.

Lemma shr_1_nonneg mrs : 0 <= shr_m mrs -> 0 <= shr_m (shr_1 mrs).
Proof.
  destruct mrs as [m rb sb]. destruct m as [|p|p]; simpl; try lia.
  - destruct p; simpl; lia.
Qed.

Lemma iter_shr_1_nonneg p : forall mrs,
  0 <= shr_m mrs -> 0 <= shr_m (SpecFloat.iter_pos shr_1 p mrs).
Proof.
  induction p as [p IH|p IH|]; intros mrs H; simpl.
  - apply IH, IH, shr_1_nonneg, H.
  - apply IH, IH, H.
  - apply shr_1_nonneg, H.
Qed.

Lemma shr_fexp_nonneg m e l :
  0 <= m -> 0 <= shr_m (fst (shr_fexp prec emax m e l)).
Proof.
  intros Hm. unfold shr_fexp, shr.
  assert (H0 : 0 <= shr_m (shr_record_of_loc m l)) by (destruct l as [|[| |]]; exact Hm).
  destruct (fexp prec emax (Zdigits2 m + e) - e); simpl; auto.
  apply iter_shr_1_nonneg, H0.
Qed.

Lemma round_nearest_even_nonneg m l : 0 <= m -> 0 <= round_nearest_even m l.
Proof.
  intros Hm. destruct l as [|[| |]]; simpl; try lia.
  destruct (Z.even m); lia.
Qed.

Lemma binary_round_aux_sign s m e l :
  0 <= m -> signIs s (binary_round_aux prec emax s m e l).
Proof.
  intros Hm. unfold binary_round_aux.
  pose proof (shr_fexp_nonneg m e l Hm) as H1.
  destruct (shr_fexp prec emax m e l) as [mrs' e'].
  pose proof (shr_fexp_nonneg (round_nearest_even (shr_m mrs') (loc_of_shr_record mrs')) e'
                loc_Exact (round_nearest_even_nonneg _ _ H1)) as H2.
  destruct (shr_fexp prec emax _ e' loc_Exact) as [mrs'' e''].
  simpl in H2. destruct (shr_m mrs'') as [|p|p]; simpl; try reflexivity; try lia.
  destruct (e'' <=? emax - prec); reflexivity.
Qed.

Lemma div_finite_sign sx mx ex sy my ey :
  signIs (xorb sx sy) (div (S754_finite sx mx ex) (S754_finite sy my ey)).
Proof.
  unfold div, SFdiv, SFdiv_core_binary.
  set (e' := Z.min _ _). set (sh := ex - ey - e').
  set (m' := match sh with Z0 => Zpos mx | Zpos _ => Z.shiftl (Zpos mx) sh | Zneg _ => 0 end).
  assert (Hm' : 0 <= m').
  { subst m'. destruct sh; try lia. apply Z.shiftl_nonneg. lia. }
  pose proof (Z.div_pos m' (Zpos my) Hm' eq_refl) as Hq.
  unfold Z.div in Hq. destruct (Z.div_eucl m' (Zpos my)) as [q rm].
  apply binary_round_aux_sign, Hq.
Qed.

Lemma fraction_below v :
  leb v (ofZ 0) = true -> fraction v (ofZ 0) Number_EPSILON = ofZ 0.
Proof.
  intros Hle. unfold fraction. rewrite sub_zero_r.
  destruct v as [s|s| |s m e].
  - destruct s; reflexivity.
  - destruct s; [reflexivity | discriminate Hle].
  - discriminate Hle.
  - destruct s; [| discriminate Hle].
    rewrite Number_EPSILON_eq.
    pose proof (div_finite_sign true m e false 4503599627370496 (-104)) as Hs.
    destruct (div _ _) as [s'|s'| |s' m' e']; simpl in Hs; subst; try contradiction;
      reflexivity.
Qed.

Lemma SFeqb_finite_refl s m e : eqb (S754_finite s m e) (S754_finite s m e) = true.
Proof.
  unfold eqb, SFeqb, SFcompare. rewrite Z.compare_refl, Pos.compare_cont_refl.
  destruct s; reflexivity.
Qed.

(** A double that denotes a non-negative integer below 2^53 is numerically
    the double of that integer. *)
Lemma toInteger_eqb v k :
  isDouble v ->
  toInteger v = Some k -> 0 <= k < 2 ^ 53 ->
  eqb v (ofZ k) = true.
Proof.
  intros Hv Hk Hrange. destruct v as [s|s| |s m e]; try discriminate Hk.
  - injection Hk as <-. destruct s; reflexivity.
  - unfold isDouble in Hv. cbn [valid_binary] in Hv.
    unfold bounded, canonical_mantissa, fexp, emin, prec, emax in Hv.
    apply andb_true_iff in Hv as [Hc Hb]. apply Z.eqb_eq in Hc. apply Z.leb_le in Hb.
    pose proof (digits2_pos_bounds m) as [Blo Bhi].
    pose proof (Pos2Z.is_pos (digits2_pos m)) as Hdpos.
    unfold toInteger, signed, cond_Zopp in Hk.
    destruct (0 <=? e) eqn:Ee.
    + apply Z.leb_le in Ee. injection Hk as <-.
      assert (Hd : Zpos (digits2_pos m) = 53) by lia.
      rewrite Hd in Blo. change (2 ^ (53 - 1)) with 4503599627370496 in Blo.
      change (2 ^ 53) with 9007199254740992 in Hrange.
      assert (0 < 2 ^ e) by (apply Z.pow_pos_nonneg; lia).
      destruct s; [nia |].
      assert (e = 0).
      { destruct (Z.eq_dec e 0) as [|Hne]; [assumption | exfalso].
        assert (2 ^ 1 <= 2 ^ e) by (apply Z.pow_le_mono_r; lia).
        change (2 ^ 1) with 2 in *. nia. }
      subst e. rewrite Z.mul_1_r. rewrite ofZ_pos by lia.
      unfold normal. rewrite Hd. apply SFeqb_finite_refl.
    + apply Z.leb_gt in Ee.
      destruct (Zpos m mod 2 ^ (- e) =? 0) eqn:Em; [| discriminate Hk].
      apply Z.eqb_eq in Em. injection Hk as <-.
      assert (Hp : 0 < 2 ^ (- e)) by (apply Z.pow_pos_nonneg; lia).
      destruct s.
      { exfalso. assert (Zneg m / 2 ^ (- e) < 0); [| lia].
        apply Z.div_lt_upper_bound; lia. }
      pose proof (Z.div_mod (Zpos m) (2 ^ (- e)) ltac:(lia)) as Hdm.
      rewrite Em, Z.add_0_r in Hdm.
      set (k := Zpos m / 2 ^ (- e)) in *.
      assert (Hk1 : 1 <= k) by nia.
      destruct k as [|p|p] eqn:Ek; try lia.
      destruct (- e) as [|j|j] eqn:Ej; try lia.
      assert (Hm : m = Pos.iter xO p j).
      { apply Pos2Z.inj. rewrite iter_xO_spec. lia. }
      assert (Hdm' := digits2_pos_shift p j). rewrite <- Hm in Hdm'.
      assert (Hd : Zpos (digits2_pos m) = 53).
      { destruct (Z.eq_dec (Zpos (digits2_pos m)) 53) as [|Hne]; [assumption | exfalso].
        assert (e = -1074) by lia.
        pose proof (Pos2Z.is_pos (digits2_pos p)). lia. }
      rewrite ofZ_pos by lia. unfold normal.
      replace (53 - Zpos (digits2_pos p)) with (Zpos j) by lia.
      rewrite <- Hm. replace (Zneg j) with e by lia. apply SFeqb_finite_refl.
Qed.

(** *** Masks and shifts *)

Lemma land_byte_mask n k :
  0 <= k -> Z.land n (Z.shiftl (Z.ones 8) k) = Z.shiftl (Z.land (Z.shiftr n k) (Z.ones 8)) k.
Proof.
  intros Hk. apply Z.bits_inj'. intros i Hi.
  rewrite Z.land_spec, !Z.shiftl_spec by lia.
  destruct (Z_lt_le_dec i k) as [Hlt|Hge].
  - rewrite !(Z.testbit_neg_r _ (i - k)) by lia. apply andb_false_r.
  - rewrite Z.land_spec, Z.shiftr_spec by lia.
    replace (i - k + k) with i by lia. reflexivity.
Qed.

Lemma unpack_byte n k :
  0 <= n < 2 ^ 32 -> 0 <= k <= 24 ->
  unsignedShiftRight (bitAnd n (Z.shiftl (Z.ones 8) k)) k = (n / 2 ^ k) mod 2 ^ 8.
Proof.
  intros Hn Hk. unfold unsignedShiftRight, bitAnd, toInt32.
  assert (Hmask : 0 <= Z.shiftl (Z.ones 8) k < 2 ^ 32).
  { rewrite Z.shiftl_mul_pow2 by lia. change (Z.ones 8) with 255.
    assert (0 < 2 ^ k) by (apply Z.pow_pos_nonneg; lia).
    assert (2 ^ k <= 2 ^ 24) by (apply Z.pow_le_mono_r; lia).
    change (2 ^ 24) with 16777216 in *. change (2 ^ 32) with 4294967296. lia. }
  rewrite (Z.mod_small n) by lia.
  rewrite (Z.mod_small (Z.shiftl _ _)) by lia.
  rewrite land_byte_mask by lia.
  assert (Hx' : Z.land (Z.shiftr n k) (Z.ones 8) = (n / 2 ^ k) mod 2 ^ 8).
  { rewrite Z.land_ones, Z.shiftr_div_pow2 by lia. reflexivity. }
  rewrite Hx'. clear Hx'.
  set (x := (n / 2 ^ k) mod 2 ^ 8).
  assert (Hx : 0 <= x < 2 ^ 8) by (apply Z.mod_pos_bound; lia).
  assert (Hw : 0 <= Z.shiftl x k < 2 ^ 32).
  { rewrite Z.shiftl_mul_pow2 by lia.
    assert (0 < 2 ^ k) by (apply Z.pow_pos_nonneg; lia).
    assert (2 ^ k <= 2 ^ 24) by (apply Z.pow_le_mono_r; lia).
    change (2 ^ 24) with 16777216 in *. change (2 ^ 32) with 4294967296.
    change (2 ^ 8) with 256 in *. nia. }
  rewrite (Z.mod_small (Z.shiftl x k)) by lia.
  assert (Hm : (if Z.shiftl x k <? 2 ^ 31 then Z.shiftl x k else Z.shiftl x k - 2 ^ 32)
               mod 2 ^ 32 = Z.shiftl x k).
  { destruct (Z.shiftl x k <? 2 ^ 31).
    - apply Z.mod_small; lia.
    - replace (Z.shiftl x k - 2 ^ 32) with (Z.shiftl x k + (-1) * 2 ^ 32) by lia.
      rewrite Z.mod_add by lia. apply Z.mod_small; lia. }
  rewrite Hm. rewrite Z.shiftr_shiftl_l by lia.
  rewrite Z.sub_diag. apply Z.shiftl_0_r.
Qed.

Lemma pack_bytes ca cr cg cb :
  isByte ca -> isByte cr -> isByte cg -> isByte cb ->
  0 <= pack ca cr cg cb < 2 ^ 32 /\
  (pack ca cr cg cb / 2 ^ 24) mod 2 ^ 8 = ca /\
  (pack ca cr cg cb / 2 ^ 16) mod 2 ^ 8 = cr /\
  (pack ca cr cg cb / 2 ^ 8) mod 2 ^ 8 = cg /\
  (pack ca cr cg cb / 2 ^ 0) mod 2 ^ 8 = cb.
Proof.
  unfold isByte, pack. intros Ha Hr Hg Hb.
  change (2 ^ 32) with 4294967296. change (2 ^ 24) with 16777216.
  change (2 ^ 16) with 65536. change (2 ^ 8) with 256. change (2 ^ 0) with 1.
  set (n := ca * 16777216 + cr * 65536 + cg * 256 + cb).
  assert (D24 : n / 16777216 = ca).
  { symmetry. apply (Z.div_unique n 16777216 ca (cr * 65536 + cg * 256 + cb)); lia. }
  assert (D16 : n / 65536 = ca * 256 + cr).
  { symmetry. apply (Z.div_unique n 65536 (ca * 256 + cr) (cg * 256 + cb)); lia. }
  assert (D8 : n / 256 = ca * 65536 + cr * 256 + cg).
  { symmetry. apply (Z.div_unique n 256 (ca * 65536 + cr * 256 + cg) cb); lia. }
  rewrite D24, D16, D8, Z.div_1_r.
  repeat split; try lia.
  - apply Z.mod_small; lia.
  - symmetry. apply (Z.mod_unique _ _ ca); lia.
  - symmetry. apply (Z.mod_unique _ _ (ca * 256 + cr)); lia.
  - symmetry. apply (Z.mod_unique _ _ (ca * 65536 + cr * 256 + cg)); lia.
Qed.

Lemma getColorBgra_unpacks output colorValue :
  let n := ToUint32 colorValue in
  getColorBgra output colorValue
  = bytesOver255 ((n / 2 ^ 24) mod 2 ^ 8) ((n / 2 ^ 16) mod 2 ^ 8)
                 ((n / 2 ^ 8) mod 2 ^ 8) ((n / 2 ^ 0) mod 2 ^ 8).
Proof.
  intros n.
  assert (Hn : 0 <= n < 2 ^ 32).
  { subst n. unfold ToUint32. destruct colorValue; try (change (2 ^ 32) with 4294967296; lia).
    apply Z.mod_pos_bound. reflexivity. }
  unfold getColorBgra, bytesOver255, rgba. fold n.
  change 0x00ff0000 with (Z.shiftl (Z.ones 8) 16).
  change 0x0000ff00 with (Z.shiftl (Z.ones 8) 8).
  change 0x000000ff with (Z.shiftl (Z.ones 8) 0).
  change 0xff000000 with (Z.shiftl (Z.ones 8) 24).
  rewrite !unpack_byte by lia. reflexivity.
Qed.

Section TurboTable.
Variable SRGBToLinear : num -> num.
Variable clamp : num -> num -> num -> num.

Lemma Float32Array_set_length t k v : length (Float32Array_set t k v) = length t.
Proof. unfold Float32Array_set. destruct (0 <=? k); [apply length_insert | reflexivity]. Qed.

Lemma Float32Array_set_lookup t k v j :
  0 <= k -> (Z.to_nat k < length t)%nat ->
  Float32Array_set t k v !! j
  = if decide (j = Z.to_nat k) then Some (fround (toNumber v)) else t !! j.
Proof.
  intros Hk Hlen. unfold Float32Array_set.
  replace (0 <=? k) with true by (symmetry; apply Z.leb_le; exact Hk).
  destruct (decide (j = Z.to_nat k)) as [->|Hne].
  - apply list_lookup_insert_eq. exact Hlen.
  - apply list_lookup_insert_ne. congruence.
Qed.

Lemma fillTurboEntry_spec i t c0 :
  0 <= i -> (Z.to_nat (i * 3 + 2) < length t)%nat ->
  let t' := fst (fillTurboEntry SRGBToLinear clamp i (t, c0)) in
  length t' = length t /\
  (forall c, 0 <= c < 3 -> t' !! Z.to_nat (i * 3 + c) = Some (turboEntry SRGBToLinear clamp i c)) /\
  (forall j, (j < Z.to_nat (i * 3))%nat -> t' !! j = t !! j).
Proof.
  intros Hi Hlen. unfold fillTurboEntry. cbn [fst].
  change (TURBO_LOOKUP_SIZE - 1) with 65534.
  repeat split.
  - rewrite !Float32Array_set_length. reflexivity.
  - intros c Hc.
    rewrite !Float32Array_set_lookup by (rewrite ?Float32Array_set_length; lia).
    unfold turboEntry.
    assert (c = 0 \/ c = 1 \/ c = 2) as [-> | [-> | ->]] by lia; cbn [Z.eqb];
      repeat (destruct (decide _) as [?|?]; try lia); reflexivity.
  - intros j Hj.
    rewrite !Float32Array_set_lookup by (rewrite ?Float32Array_set_length; lia).
    repeat (destruct (decide _) as [?|?]; try lia). reflexivity.
Qed.

Lemma fillTurbo_spec n : forall i t c0,
  0 <= i -> (Z.to_nat ((i + Z.of_nat n) * 3) <= length t)%nat ->
  let t' := fst (fillTurbo SRGBToLinear clamp n i (t, c0)) in
  length t' = length t /\
  (forall j c, i <= j < i + Z.of_nat n -> 0 <= c < 3 ->
     t' !! Z.to_nat (j * 3 + c) = Some (turboEntry SRGBToLinear clamp j c)) /\
  (forall j, (j < Z.to_nat (i * 3))%nat -> t' !! j = t !! j).
Proof.
  induction n as [|n IH]; intros i t c0 Hi Hlen.
  - cbn [fillTurbo fst]. repeat split; try reflexivity. intros; lia.
  - cbn [fillTurbo].
    destruct (fillTurboEntry SRGBToLinear clamp i (t, c0)) as [t1 c1] eqn:E1.
    pose proof (fillTurboEntry_spec i t c0 Hi ltac:(lia)) as (L1 & Own1 & Old1).
    rewrite E1 in L1, Own1, Old1. cbn [fst] in L1, Own1, Old1.
    destruct (IH (i + 1) t1 c1 ltac:(lia) ltac:(lia)) as (L2 & Own2 & Old2).
    repeat split.
    + congruence.
    + intros j c Hj Hc. destruct (Z.eq_dec j i) as [->|Hne].
      * rewrite Old2 by lia. apply Own1, Hc.
      * apply Own2; lia.
    + intros j Hj. rewrite Old2 by lia. apply Old1, Hj.
Qed.

Lemma buildTurboLookup_spec :
  Z.of_nat (length (buildTurboLookup SRGBToLinear clamp)) = 3 * 65535 /\
  forall j c, 0 <= j < 65535 -> 0 <= c < 3 ->
    buildTurboLookup SRGBToLinear clamp !! Z.to_nat (j * 3 + c) = Some (turboEntry SRGBToLinear clamp j c).
Proof.
  unfold buildTurboLookup.
  pose proof (fillTurbo_spec (Z.to_nat TURBO_LOOKUP_SIZE) 0
                (Float32Array_new (TURBO_LOOKUP_SIZE * 3))
                (rgba (ofZ 0) (ofZ 0) (ofZ 0) (ofZ 0)) ltac:(lia)) as H.
  unfold Float32Array_new in *. rewrite length_replicate in H.
  unfold TURBO_LOOKUP_SIZE in *.
  destruct (H ltac:(lia)) as (L & Own & _). split.
  - rewrite L. lia.
  - intros j c Hj Hc. apply Own; lia.
Qed.

End TurboTable.

Lemma toInteger_ofZ n : 0 <= n < 2 ^ 53 -> toInteger (ofZ n) = Some n.
Proof.
  intros Hn. destruct n as [|p|p]; try lia; [reflexivity |].
  assert (Hd : Zpos (digits2_pos p) <= 53).
  { pose proof (digits2_pos_bounds p) as [Blo _].
    destruct (Z_lt_le_dec 53 (Zpos (digits2_pos p))); [| lia].
    assert (2 ^ 53 <= 2 ^ (Zpos (digits2_pos p) - 1)) by (apply Z.pow_le_mono_r; lia).
    lia. }
  rewrite ofZ_pos by lia.
  destruct (normal_value p) as (j & Hj & Hdj & ->); [lia |].
  assert (0 < 2 ^ j) by (apply Z.pow_pos_nonneg; lia).
  unfold toInteger, signed, cond_Zopp.
  rewrite Z2Pos.id by lia.
  destruct (0 <=? - j) eqn:E.
  - apply Z.leb_le in E. assert (j = 0) by lia. subst j.
    change (- 0) with 0. change (2 ^ 0) with 1. rewrite !Z.mul_1_r. reflexivity.
  - rewrite Z.opp_involutive, Z.mod_mul by lia. cbn [Z.eqb].
    rewrite Z.div_mul by lia. reflexivity.
Qed.

(** ** The bluegold table *)

Lemma blueGoldColormapData_length : length blueGoldColormapData = 256%nat.
Proof. reflexivity. Qed.

Lemma bluegoldLookup_off_table output v :
  isDouble v ->
  (forall k, 0 <= k <= 255 -> eqb v (ofZ k) = false) ->
  bluegoldLookup output v = output.
Proof.
  intros Hv Hoff. unfold bluegoldLookup, index.
  destruct (toInteger v) as [k|] eqn:Ek; [| reflexivity].
  rewrite blueGoldColormapData_length.
  destruct (0 <=? k) eqn:E0; [| reflexivity].
  destruct (k <? Z.of_nat 256) eqn:E1; [| reflexivity].
  apply Z.leb_le in E0. apply Z.ltb_lt in E1. exfalso.
  assert (Hk : 0 <= k <= 255) by lia.
  specialize (Hoff k Hk).
  rewrite (toInteger_eqb v k Hv Ek) in Hoff; [discriminate |].
  change (2 ^ 53) with 9007199254740992. lia.
Qed.

Lemma bluegoldLookup_on_table output k :
  0 <= k <= 255 ->
  exists r0 g0 b0,
    blueGoldColormapData !! Z.to_nat k = Some (r0, g0, b0) /\
    bluegoldLookup output (ofZ k)
    = rgba (div (ofZ r0) (ofZ 255)) (div (ofZ g0) (ofZ 255))
           (div (ofZ b0) (ofZ 255)) (ofZ 1).
Proof.
  intros Hk. unfold bluegoldLookup, index.
  rewrite toInteger_ofZ by (change (2 ^ 53) with 9007199254740992; lia).
  rewrite blueGoldColormapData_length.
  replace (0 <=? k) with true by (symmetry; apply Z.leb_le; lia).
  replace (k <? Z.of_nat 256) with true by (symmetry; apply Z.ltb_lt; lia).
  cbn [andb].
  destruct (lookup_lt_is_Some_2 blueGoldColormapData (Z.to_nat k)) as [[[r0 g0] b0] E].
  { rewrite blueGoldColormapData_length. lia. }
  exists r0, g0, b0. rewrite E. split; reflexivity.
Qed.

(** ** Field selection *)

Lemma has_In names x : has names x = true <-> In x names.
Proof.
  unfold has. rewrite existsb_exists. split.
  - intros (y & Hy & E). apply String.eqb_eq in E. subst. exact Hy.
  - intros H. exists x. split; [exact H | apply String.eqb_refl].
Qed.

Lemma find_first (p : string -> bool) fields field :
  find p fields = Some field <->
  exists before after,
    fields = before ++ field :: after /\ p field = true /\
    forall x, In x before -> p x = false.
Proof.
  induction fields as [|f fields IH]; simpl.
  - split; [discriminate |]. intros ([|? ?] & after & E & _); discriminate E.
  - destruct (p f) eqn:Ef.
    + split.
      * intros [= <-]. exists [], fields. repeat split; [exact Ef | intros x []].
      * intros ([|f' before] & after & E & Hp & Hb).
        -- simpl in E. congruence.
        -- simpl in E. injection E as <- _. rewrite (Hb f (or_introl eq_refl)) in Ef.
           discriminate.
    + rewrite IH. split.
      * intros (before & after & -> & Hp & Hb). exists (f :: before), after.
        repeat split; [exact Hp |]. intros x [<-|Hx]; [exact Ef | apply Hb, Hx].
      * intros ([|f' before] & after & E & Hp & Hb).
        -- simpl in E. injection E as -> _. congruence.
        -- simpl in E. injection E as <- ->. exists before, after.
           repeat split; [exact Hp |]. intros x Hx. apply Hb. right. exact Hx.
Qed.

Lemma find_has_first names fields field :
  find (fun f => has names (toLowerCase f)) fields = Some field <->
  firstWith (Named names) fields field.
Proof.
  rewrite find_first. unfold firstWith, Named.
  split; intros (before & after & E & Hp & Hb); exists before, after;
    (split; [exact E |]); split.
  - apply has_In, Hp.
  - intros x Hx Hn. apply has_In in Hn. rewrite (Hb x Hx) in Hn. discriminate.
  - apply has_In, Hp.
  - intros x Hx. destruct (has names (toLowerCase x)) eqn:E'; [| reflexivity].
    exfalso. apply (Hb x Hx), has_In, E'.
Qed.

Lemma find_has_none names fields :
  find (fun f => has names (toLowerCase f)) fields = None <->
  noneWith (Named names) fields.
Proof.
  unfold noneWith, Named. split.
  - intros H x Hx Hn. apply has_In in Hn.
    rewrite (find_none _ _ H x Hx) in Hn. discriminate.
  - intros H. destruct (find _ fields) as [f|] eqn:E; [| reflexivity].
    apply find_some in E as [Hf Hp]. exfalso. apply (H f Hf), has_In, Hp.
Qed.

Lemma find_z fields :
  find (fun f => (f =? "z")%string) fields
  = if in_dec string_dec "z"%string fields then Some "z"%string else None.
Proof.
  destruct (in_dec string_dec "z"%string fields) as [Hin|Hout].
  - destruct (find _ fields) as [f|] eqn:E.
    + apply find_some in E as [_ E]. apply String.eqb_eq in E. congruence.
    + pose proof (find_none _ _ E _ Hin) as H. discriminate H.
  - destruct (find _ fields) as [f|] eqn:E; [| reflexivity].
    apply find_some in E as [Hf E]. apply String.eqb_eq in E. subst. contradiction.
Qed.

(** The selection relation is exactly what [bestColorByField] computes. *)
Lemma bestColorByField_Chosen fields packed field :
  Chosen fields packed field -> bestColorByField fields packed = Some field.
Proof.
  intros H. unfold bestColorByField, RGBA_PACKED_FIELDS, INTENSITY_FIELDS.
  assert (Hnone :
             (packed = true -> noneWith (Named ["rgb"; "rgba"]%string) fields) ->
             (if packed
              then find (fun f => has ["rgb"; "rgba"]%string (toLowerCase f)) fields
              else None) = None).
  { intros Hp. destruct packed; [| reflexivity]. apply find_has_none, Hp, eq_refl. }
  destruct H as [field Hp Hf | field Hp Hf | Hp Hi Hz | field rest Hp Hi Hz ->].
  - subst packed. apply find_has_first in Hf. rewrite Hf. reflexivity.
  - rewrite (Hnone Hp). apply find_has_first in Hf. rewrite Hf. reflexivity.
  - rewrite (Hnone Hp). apply find_has_none in Hi. rewrite Hi.
    rewrite find_z. destruct (in_dec _ _ _); [reflexivity | contradiction].
  - rewrite (Hnone Hp). apply find_has_none in Hi. rewrite Hi.
    rewrite find_z. destruct (in_dec _ _ _); [contradiction | reflexivity].
Qed.

Lemma bestColorByField_sound fields packed field :
  bestColorByField fields packed = Some field -> Chosen fields packed field.
Proof.
  unfold bestColorByField, RGBA_PACKED_FIELDS, INTENSITY_FIELDS. intros H.
  destruct (if packed
            then find (fun f => has ["rgb"; "rgba"]%string (toLowerCase f)) fields
            else None) as [f|] eqn:Ep.
  - injection H as ->. destruct packed; [| discriminate Ep].
    apply ChosenPacked; [reflexivity | apply find_has_first, Ep].
  - assert (Hp : packed = true -> noneWith (Named ["rgb"; "rgba"]%string) fields).
    { intros ->. apply find_has_none, Ep. }
    destruct (find (fun f => has ["intensity"; "i"]%string (toLowerCase f)) fields)
      as [f|] eqn:Ei.
    + injection H as ->. apply ChosenIntensity; [exact Hp | apply find_has_first, Ei].
    + apply find_has_none in Ei. rewrite find_z in H.
      destruct (in_dec string_dec "z"%string fields) as [Hz|Hz].
      * injection H as <-. apply ChosenZ; assumption.
      * destruct fields as [|f rest]; [discriminate H |]. injection H as ->.
        apply (ChosenFirst _ _ field rest); auto.
Qed.

Lemma bestColorByField_nil packed : bestColorByField [] packed = None.
Proof. destruct packed; reflexivity. Qed.

Lemma hasSeparateRgbaFields_spec fields :
  hasSeparateRgbaFields fields = true <-> SeparateRgbaFields fields.
Proof.
  unfold hasSeparateRgbaFields, SeparateRgbaFields.
  set (step := fun '(r, g, b, a) field => _).
  assert (H : forall r0 g0 b0 a0,
             fold_left step fields (r0, g0, b0, a0)
             = (r0 || existsb (String.eqb "red") fields,
                g0 || existsb (String.eqb "green") fields,
                b0 || existsb (String.eqb "blue") fields,
                a0 || existsb (String.eqb "alpha") fields)).
  { induction fields as [|f fields IH]; intros r0 g0 b0 a0.
    - simpl. rewrite !orb_false_r. reflexivity.
    - cbn [fold_left existsb]. unfold step at 2.
      rewrite !(String.eqb_sym _ f).
      destruct (f =? "red")%string eqn:Er.
      { apply String.eqb_eq in Er. subst f. rewrite IH. cbn.
        rewrite !orb_true_r. reflexivity. }
      destruct (f =? "green")%string eqn:Eg.
      { apply String.eqb_eq in Eg. subst f. rewrite IH. cbn.
        rewrite !orb_true_r. reflexivity. }
      destruct (f =? "blue")%string eqn:Eb.
      { apply String.eqb_eq in Eb. subst f. rewrite IH. cbn.
        rewrite !orb_true_r. reflexivity. }
      destruct (f =? "alpha")%string eqn:Ea.
      { apply String.eqb_eq in Ea. subst f. rewrite IH. cbn.
        rewrite !orb_true_r. reflexivity. }
      rewrite IH. reflexivity. }
  rewrite H. cbn [orb]. rewrite !andb_true_iff, !existsb_exists.
  assert (E : forall s, (exists x, In x fields /\ (s =? x)%string = true) <-> In s fields).
  { intros s. split.
    - intros (x & Hx & Es). apply String.eqb_eq in Es. subst. exact Hx.
    - intros Hs. exists s. split; [exact Hs | apply String.eqb_refl]. }
  rewrite !E. tauto.
Qed.

(** Reduces the tests of a [switch] on closed strings. *)
Ltac switch :=
  repeat match goal with
  | |- context [String.eqb ?x ?y] =>
      let v := eval vm_compute in (String.eqb x y) in
      lazymatch v with
      | true => change (String.eqb x y) with true
      | false => change (String.eqb x y) with false
      end
  end;
  cbv beta iota.

(** ** The packed-colour unpacker *)

(** C8. For every number, [getColorBgra] reads the four bytes of its
    unsigned 32-bit conversion as 0xAARRGGBB and assigns each byte divided by
    255 (a from byte 3, r from byte 2, g from byte 1, b from byte 0): there
    is no error path. Hence packing any four byte values (a, r, g, b) into
    0xAARRGGBB and unpacking gives back those four bytes divided by 255. *)
Theorem getColorBgra_roundtrip (output : ColorRGBA) :
  (forall colorValue,
     let n := ToUint32 colorValue in
     0 <= n < 2 ^ 32 /\
     getColorBgra output colorValue
     = bytesOver255 (byteOf 3 n) (byteOf 2 n) (byteOf 1 n) (byteOf 0 n)) /\
  (forall ca cr cg cb,
     isByte ca -> isByte cr -> isByte cg -> isByte cb ->
     getColorBgra output (ofZ (pack ca cr cg cb)) = bytesOver255 ca cr cg cb).
Proof.
  split.
  - intros colorValue n. split.
    + subst n. unfold ToUint32.
      destruct colorValue; try (change (2 ^ 32) with 4294967296; lia).
      apply Z.mod_pos_bound. reflexivity.
    + apply getColorBgra_unpacks.
  - intros ca cr cg cb Ha Hr Hg Hb.
    destruct (pack_bytes ca cr cg cb Ha Hr Hg Hb) as (Hn & E24 & E16 & E8 & E0).
    rewrite getColorBgra_unpacks. cbv zeta. rewrite ToUint32_ofZ by exact Hn.
    rewrite E24, E16, E8, E0. reflexivity.
Qed.

(** ** The field auto-selection *)

Lemma autoSelectColorSettings_chosen output fields packed supportsRgbaFieldsMode field :
  bestColorByField fields packed = Some field -> field <> ""%string ->
  autoSelectColorSettings output fields packed supportsRgbaFieldsMode
  = let selected := setColorField field output in
    let selected :=
      if (toLowerCase field =? "rgb")%string then setColorMode "rgb" selected
      else if (toLowerCase field =? "rgba")%string then setColorMode "rgba" selected
      else setColorMap "turbo" (setColorMode "colormap" selected) in
    if match supportsRgbaFieldsMode with
       | Some true => hasSeparateRgbaFields fields
       | _ => false
       end
    then setColorMode "rgba-fields" selected
    else selected.
Proof.
  intros Hb Hne. unfold autoSelectColorSettings. rewrite Hb. cbn [truthy].
  apply String.eqb_neq in Hne. rewrite Hne. cbn [negb]. cbv zeta.
  destruct supportsRgbaFieldsMode as [[|]|]; reflexivity.
Qed.

(** With an empty field list [autoSelectColorSettings]
    leaves the settings as they are. The best field is the one the priority
    order picks (packed rgb/rgba if supported, else an intensity synonym,
    else exactly "z", else the first field; names compared
    case-insensitively, the first match in list order). When that field is
    not the empty string, it becomes [colorField]; the final [colorMode] is
    "rgba-fields" when the separate-channel override applies, and otherwise
    "rgb" or "rgba" for a field so named and "colormap" with [colorMap]
    "turbo" for any other field. *)
Theorem autoSelectColorSettings_priority
    (output : ColorModeSettings) (fields : list string)
    (supportsPackedRgbModes : bool) (supportsRgbaFieldsMode : option bool) :
  let result :=
    autoSelectColorSettings output fields supportsPackedRgbModes supportsRgbaFieldsMode in
  (fields = [] -> result = output) /\
  (forall field,
     bestColorByField fields supportsPackedRgbModes = Some field
     <-> Chosen fields supportsPackedRgbModes field) /\
  (forall field,
     Chosen fields supportsPackedRgbModes field -> field <> ""%string ->
     colorField result = Some field /\
     (supportsRgbaFieldsMode = Some true /\ SeparateRgbaFields fields ->
      colorMode result = "rgba-fields"%string) /\
     (~ (supportsRgbaFieldsMode = Some true /\ SeparateRgbaFields fields) ->
      (toLowerCase field = "rgb"%string -> colorMode result = "rgb"%string) /\
      (toLowerCase field = "rgba"%string -> colorMode result = "rgba"%string) /\
      (toLowerCase field <> "rgb"%string -> toLowerCase field <> "rgba"%string ->
       colorMode result = "colormap"%string /\ colorMap result = "turbo"%string))).
Proof.
  intros result. split.
  - intros ->. subst result. unfold autoSelectColorSettings.
    rewrite bestColorByField_nil. reflexivity.
  - split.
    { intros field. split; [apply bestColorByField_sound | apply bestColorByField_Chosen]. }
    intros field Hc Hne. subst result.
    rewrite (autoSelectColorSettings_chosen _ _ _ _ _ (bestColorByField_Chosen _ _ _ Hc) Hne).
    assert (Hover : (match supportsRgbaFieldsMode with
                     | Some true => hasSeparateRgbaFields fields
                     | _ => false
                     end) = true
                    <-> supportsRgbaFieldsMode = Some true /\ SeparateRgbaFields fields).
    { rewrite <- hasSeparateRgbaFields_spec.
      destruct supportsRgbaFieldsMode as [[|]|]; split;
        try discriminate; try tauto; intros [E _]; discriminate E. }
    destruct (match supportsRgbaFieldsMode with
              | Some true => hasSeparateRgbaFields fields
              | _ => false
              end) eqn:Eo.
    + assert (Hyes : supportsRgbaFieldsMode = Some true /\ SeparateRgbaFields fields)
        by (apply Hover; reflexivity).
      split; [| split]; [| reflexivity | intros Hno; contradiction].
      destruct (toLowerCase field =? "rgb")%string;
        [| destruct (toLowerCase field =? "rgba")%string]; reflexivity.
    + assert (Hno : ~ (supportsRgbaFieldsMode = Some true /\ SeparateRgbaFields fields)).
      { intros Hyes. apply Hover in Hyes. discriminate Hyes. }
      destruct (toLowerCase field =? "rgb")%string eqn:Ergb.
      { apply String.eqb_eq in Ergb. rewrite Ergb.
        split; [reflexivity |]. split; [intros Hyes; contradiction |]. intros _.
        split; [reflexivity |]. split; [discriminate | congruence]. }
      apply String.eqb_neq in Ergb.
      destruct (toLowerCase field =? "rgba")%string eqn:Ergba.
      { apply String.eqb_eq in Ergba. rewrite Ergba.
        split; [reflexivity |]. split; [intros Hyes; contradiction |]. intros _.
        split; [discriminate |]. split; [reflexivity | congruence]. }
      apply String.eqb_neq in Ergba.
      split; [reflexivity |]. split; [intros Hyes; contradiction |]. intros _.
      split; [contradiction |]. split; [contradiction |]. intros _ _. split; reflexivity.
Qed.

(** The test [!bestField] holds for the empty string as it does for
    [undefined]: when the priority order picks a field named "", the call
    returns before it has written anything. *)
Lemma autoSelectColorSettings_empty_name output fields packed supportsRgbaFieldsMode :
  bestColorByField fields packed = Some ""%string ->
  autoSelectColorSettings output fields packed supportsRgbaFieldsMode = output.
Proof. intros Hb. unfold autoSelectColorSettings. rewrite Hb. reflexivity. Qed.

(** C6 fails on the code: for the list of the two fields "" and "x" the
    priority order comes down to rule (4) and picks the first field, the
    empty name, so that [colorField] should become that field and the mode
    "colormap" with the map "turbo". The early return on a falsy best field
    leaves the settings as they were instead, whatever they were and
    whatever the flags: settings in the flat mode stay flat, with no colour
    field. *)
Theorem autoSelectColorSettings_empty_name_makes_no_change :
  let fields := [""; "x"]%string in
  forall (output : ColorModeSettings) (supportsPackedRgbModes : bool)
         (supportsRgbaFieldsMode : option bool),
    let result :=
      autoSelectColorSettings output fields supportsPackedRgbModes supportsRgbaFieldsMode in
    let flat :=
      autoSelectColorSettings (exampleSettings "flat") fields supportsPackedRgbModes
        supportsRgbaFieldsMode in
    fields <> [] /\
    Chosen fields supportsPackedRgbModes ""%string /\
    bestColorByField fields supportsPackedRgbModes = Some ""%string /\
    result = output /\
    colorField flat = None /\ colorField flat <> Some ""%string /\
    colorMode flat = "flat"%string /\ colorMode flat <> "colormap"%string /\
    colorMap flat = "bluegold"%string /\ colorMap flat <> "turbo"%string.
Proof.
  intros fields output packed supportsRgbaFieldsMode result flat.
  assert (Hb : bestColorByField fields packed = Some ""%string)
    by (destruct packed; reflexivity).
  assert (Hflat : flat = exampleSettings "flat")
    by (apply autoSelectColorSettings_empty_name, Hb).
  split; [discriminate |].
  split; [apply bestColorByField_sound, Hb |].
  split; [exact Hb |].
  split; [apply autoSelectColorSettings_empty_name, Hb |].
  rewrite Hflat.
  split; [reflexivity |]. split; [discriminate |].
  split; [reflexivity |]. split; [discriminate |].
  split; [reflexivity |]. discriminate.
Qed.

(** C7 fails on the code: a field list that starts with an empty name and
    also holds red, green, blue and alpha is left without the override,
    because the early return on a falsy best field comes before the check. *)
Theorem autoSelectColorSettings_empty_name_skips_override :
  let fields := [""; "red"; "green"; "blue"; "alpha"]%string in
  SeparateRgbaFields fields /\
  hasSeparateRgbaFields fields = true /\
  bestColorByField fields false = Some ""%string /\
  autoSelectColorSettings (exampleSettings "flat") fields false (Some true)
  = exampleSettings "flat" /\
  colorMode (autoSelectColorSettings (exampleSettings "flat") fields false (Some true))
  <> "rgba-fields"%string.
Proof.
  cbv zeta. split; [apply hasSeparateRgbaFields_spec; reflexivity |].
  split; [reflexivity |]. split; [reflexivity |]. split; [reflexivity |]. discriminate.
Qed.

(** The override of C7 does win whenever the best field is a non-empty
    name. *)
Lemma autoSelectColorSettings_override output fields packed field :
  bestColorByField fields packed = Some field -> field <> ""%string ->
  SeparateRgbaFields fields ->
  colorMode (autoSelectColorSettings output fields packed (Some true))
  = "rgba-fields"%string.
Proof.
  intros Hb Hne Hs. rewrite (autoSelectColorSettings_chosen _ _ _ _ _ Hb Hne).
  apply hasSeparateRgbaFields_spec in Hs. rewrite Hs. reflexivity.
Qed.

(** ** The converter factory and the transparency classifier *)

Ltac unfold_factory := unfold getColorConverter.
Ltac unfold_classifier := unfold colorHasTransparency.
Ltac unfold_cached := unfold turboLinearCached, turboOffset.

Section ColorModeFacts.

Variable stringToRgbaWrites : ColorRGBA -> string -> ColorRGBA.
Variable SRGBToLinear : num -> num.
Variable rgbaGradient : ColorRGBA -> ColorRGBA -> ColorRGBA -> num -> ColorRGBA.
Variable clamp : num -> num -> num -> num.

Local Abbreviation getColorConverter :=
  (getColorConverter stringToRgbaWrites SRGBToLinear rgbaGradient clamp).
Local Abbreviation colorHasTransparency := (colorHasTransparency stringToRgbaWrites).
Local Abbreviation turboLinearCached := (turboLinearCached SRGBToLinear clamp).
Local Abbreviation buildTurboLookup := (buildTurboLookup SRGBToLinear clamp).
Local Abbreviation turboEntry := (turboEntry SRGBToLinear clamp).
Local Abbreviation linearized := (linearized SRGBToLinear).

(** C1, as amended. The type of [getColorConverter] excludes the mode
    "rgba-fields", and nothing guards it at run time: called with such
    settings, no [case] matches, so the call returns [undefined] - neither a
    converter nor an error - and leaves the module's objects as they were. *)
Theorem getColorConverter_rgba_fields_returns_undefined
    (settings : ColorModeSettings) (minValue maxValue : num) (gl : Globals) :
  colorMode settings = "rgba-fields"%string ->
  getColorConverter settings minValue maxValue gl = (gl, ReturnedUndefined).
Proof.
  intros Hmode. unfold_factory. rewrite Hmode. switch. reflexivity.
Qed.

(** C3, as amended. With [colorMode] "gradient" and [minValue = maxValue = 0]
    the divisor is [Number.EPSILON], not zero, and construction returns a
    converter. For every input [v] the output is the gradient between the two
    linearized endpoints at
    [frac = max(0, min((v - 0) / Number.EPSILON, 1))]; that fraction is 1 for
    every double [v >= Number.EPSILON] (the clamped result) and 0 for every
    [v <= 0]. *)
Theorem getColorConverter_gradient_degenerate_range
    (settings : ColorModeSettings) (gl : Globals) :
  colorMode settings = "gradient"%string ->
  exists convert gl',
    getColorConverter settings (ofZ 0) (ofZ 0) gl = (gl', Returned convert) /\
    Math_max (sub (ofZ 0) (ofZ 0)) Number_EPSILON = Number_EPSILON /\
    eqb Number_EPSILON (ofZ 0) = false /\
    tempColor1 gl' = linearized (stringToRgbaWrites (tempColor1 gl) (fst (gradient settings))) /\
    tempColor2 gl' = linearized (stringToRgbaWrites (tempColor2 gl) (snd (gradient settings))) /\
    (forall output v st,
       convert output v st
       = (st, rgbaGradient output (tempColor1 st) (tempColor2 st)
                (Math_max (ofZ 0) (Math_min (div (sub v (ofZ 0)) Number_EPSILON) (ofZ 1))))) /\
    (forall v, isDouble v -> leb Number_EPSILON v = true ->
       Math_max (ofZ 0) (Math_min (div (sub v (ofZ 0)) Number_EPSILON) (ofZ 1)) = ofZ 1) /\
    (forall v, leb v (ofZ 0) = true ->
       Math_max (ofZ 0) (Math_min (div (sub v (ofZ 0)) Number_EPSILON) (ofZ 1)) = ofZ 0).
Proof.
  intros Hmode. unfold_factory. rewrite Hmode. switch.
  unfold stringToRgba, rgbaToLinear. cbn [assign deref].
  eexists. eexists. split; [reflexivity |].
  split; [reflexivity |]. split; [reflexivity |].
  split; [reflexivity |]. split; [reflexivity |].
  split; [| split].
  - intros output v st. reflexivity.
  - intros v Hv Hle. apply (fraction_above v Hv Hle).
  - intros v Hle. apply (fraction_below v Hle).
Qed.

Lemma turboLinearCached_reads_entry (output : ColorRGBA) (pct : num) (gl : Globals) j :
  TurboLookup gl = None -> 0 <= j < 65535 ->
  (forall c, 0 <= c < 3 -> toInteger (add (turboOffset pct) (ofZ c)) = Some (j * 3 + c)) ->
  snd (turboLinearCached output pct gl)
  = rgba (turboEntry j 0) (turboEntry j 1) (turboEntry j 2) (ofZ 1).
Proof.
  intros Hnone Hj Hoff.
  pose proof (buildTurboLookup_spec SRGBToLinear clamp) as [Hlen Hent].
  unfold_cached. fold (turboOffset pct). rewrite Hnone.
  cbn [snd setTurboLookup TurboLookup default from_option id].
  unfold rgba, Float32Array_get, index.
  rewrite (Hoff 0 ltac:(lia)), (Hoff 1 ltac:(lia)), (Hoff 2 ltac:(lia)).
  rewrite Hlen.
  rewrite (Hent j 0 Hj ltac:(lia)), (Hent j 1 Hj ltac:(lia)), (Hent j 2 Hj ltac:(lia)).
  replace (0 <=? j * 3 + 0) with true by (symmetry; apply Z.leb_le; lia).
  replace (0 <=? j * 3 + 1) with true by (symmetry; apply Z.leb_le; lia).
  replace (0 <=? j * 3 + 2) with true by (symmetry; apply Z.leb_le; lia).
  replace (j * 3 + 0 <? 3 * 65535) with true by (symmetry; apply Z.ltb_lt; lia).
  replace (j * 3 + 1 <? 3 * 65535) with true by (symmetry; apply Z.ltb_lt; lia).
  replace (j * 3 + 2 <? 3 * 65535) with true by (symmetry; apply Z.ltb_lt; lia).
  reflexivity.
Qed.

(** C4, as amended. [turboLinearCached] builds the 65535-entry table on the
    first call that finds none and never touches an existing one; entry [j]
    holds the three channels of the analytic turbo colour at [j / 65534] in
    single precision. For every [pct] the colour is read at the offset
    [trunc(pct × 65534) × 3] - the index is truncated, not rounded - with
    alpha 1. *)
Theorem turboLinearCached_builds_once_and_truncates
    (output : ColorRGBA) (pct : num) (gl : Globals) :
  let result := turboLinearCached output pct gl in
  let offset := mul (Math_trunc (mul pct (ofZ 65534))) (ofZ 3) in
  (TurboLookup gl = None -> TurboLookup (fst result) = Some buildTurboLookup) /\
  (forall t, TurboLookup gl = Some t -> fst result = gl) /\
  tempColor1 (fst result) = tempColor1 gl /\
  tempColor2 (fst result) = tempColor2 gl /\
  tempColor (fst result) = tempColor gl /\
  Z.of_nat (length buildTurboLookup) = 3 * 65535 /\
  (forall j c, 0 <= j < 65535 -> 0 <= c < 3 ->
     buildTurboLookup !! Z.to_nat (j * 3 + c) = Some (turboEntry j c)) /\
  (exists t,
     TurboLookup (fst result) = Some t /\
     snd result = {| r := Float32Array_get t (add offset (ofZ 0));
                     g := Float32Array_get t (add offset (ofZ 1));
                     b := Float32Array_get t (add offset (ofZ 2));
                     a := Num (ofZ 1) |}) /\
  (forall j, 0 <= j < 65535 ->
     TurboLookup gl = None ->
     (forall c, 0 <= c < 3 -> toInteger (add offset (ofZ c)) = Some (j * 3 + c)) ->
     snd result = rgba (turboEntry j 0) (turboEntry j 1) (turboEntry j 2) (ofZ 1)).
Proof.
  intros result offset.
  pose proof (buildTurboLookup_spec SRGBToLinear clamp) as [Hlen Hent].
  assert (Hlast : forall j, 0 <= j < 65535 ->
            TurboLookup gl = None ->
            (forall c, 0 <= c < 3 -> toInteger (add offset (ofZ c)) = Some (j * 3 + c)) ->
            snd result = rgba (turboEntry j 0) (turboEntry j 1) (turboEntry j 2) (ofZ 1)).
  { intros j Hj Hnone Hoff. subst result offset.
    change (mul (Math_trunc (mul pct (ofZ 65534))) (ofZ 3)) with (turboOffset pct) in Hoff.
    exact (turboLinearCached_reads_entry output pct gl j Hnone Hj Hoff). }
  revert Hlast. subst result. unfold_cached.
  change (TURBO_LOOKUP_SIZE - 1) with 65534. fold offset. intros Hlast.
  destruct (TurboLookup gl) as [t|] eqn:Et; cbn [fst snd] in *.
  - split; [discriminate |]. split; [reflexivity |].
    split; [reflexivity |]. split; [reflexivity |]. split; [reflexivity |].
    split; [exact Hlen |]. split; [exact Hent |]. split; [| exact Hlast].
    exists t. rewrite Et. split; reflexivity.
  - split; [reflexivity |]. split; [discriminate |].
    split; [reflexivity |]. split; [reflexivity |]. split; [reflexivity |].
    split; [exact Hlen |]. split; [exact Hent |]. split; [| exact Hlast].
    exists buildTurboLookup. split; reflexivity.
Qed.

(** C5. A converter built for [colorMode] "colormap" and [colorMap]
    "bluegold" hands the raw input value to the 256-entry table, whatever the
    value range, and then overwrites alpha with [explicitAlpha]: the colour
    it leaves has the r, g and b of the lookup and [explicitAlpha] as its
    alpha. An integer value 0..255 selects that row of the table; for every
    other double the lookup leaves the output colour as it was, without an
    error, so that only its alpha changes. *)
Theorem getColorConverter_bluegold_raw_value
    (settings : ColorModeSettings) (minValue maxValue : num) (gl : Globals) :
  colorMode settings = "colormap"%string ->
  colorMap settings = "bluegold"%string ->
  exists convert,
    getColorConverter settings minValue maxValue gl = (gl, Returned convert) /\
    (forall output v st,
       convert output v st
       = (st, setAlpha (bluegoldLookup output v) (Num (explicitAlpha settings)))) /\
    (forall output v st,
       fst (convert output v st) = st /\
       r (snd (convert output v st)) = r (bluegoldLookup output v) /\
       g (snd (convert output v st)) = g (bluegoldLookup output v) /\
       b (snd (convert output v st)) = b (bluegoldLookup output v) /\
       a (snd (convert output v st)) = Num (explicitAlpha settings)) /\
    length blueGoldColormapData = 256%nat /\
    (forall output k, 0 <= k <= 255 ->
       exists r0 g0 b0,
         blueGoldColormapData !! Z.to_nat k = Some (r0, g0, b0) /\
         bluegoldLookup output (ofZ k)
         = rgba (div (ofZ r0) (ofZ 255)) (div (ofZ g0) (ofZ 255))
                (div (ofZ b0) (ofZ 255)) (ofZ 1)) /\
    (forall output v st,
       isDouble v -> (forall k, 0 <= k <= 255 -> eqb v (ofZ k) = false) ->
       bluegoldLookup output v = output /\
       convert output v st = (st, setAlpha output (Num (explicitAlpha settings))) /\
       snd (convert output v st)
       = mkColor (r output) (g output) (b output) (Num (explicitAlpha settings))).
Proof.
  intros Hmode Hmap. unfold_factory. rewrite Hmode, Hmap. switch.
  eexists. split; [reflexivity |].
  split; [reflexivity |]. split.
  { intros output v st. cbn [fst snd].
    split; [reflexivity |]. split; [reflexivity |]. split; [reflexivity |].
    split; reflexivity. }
  split; [reflexivity |]. split.
  - intros output k Hk. apply bluegoldLookup_on_table, Hk.
  - intros output v st Hv Hoff. cbv beta.
    rewrite (bluegoldLookup_off_table output v Hv Hoff).
    split; [reflexivity |]. split; reflexivity.
Qed.

(** The flat closure reads the shared object [tempColor1] each time it
    runs: its output is whatever that object holds then. *)
Lemma getColorConverter_flat_reads_tempColor1
    (settings : ColorModeSettings) (minValue maxValue : num) (gl : Globals) :
  colorMode settings = "flat"%string ->
  exists convert gl',
    getColorConverter settings minValue maxValue gl = (gl', Returned convert) /\
    tempColor1 gl' = linearized (stringToRgbaWrites (tempColor1 gl) (flatColor settings)) /\
    forall output v st,
      convert output v st
      = (st, mkColor (r (tempColor1 st)) (g (tempColor1 st))
                     (b (tempColor1 st)) (a (tempColor1 st))).
Proof.
  intros Hmode. unfold_factory. rewrite Hmode. switch.
  unfold stringToRgba, rgbaToLinear. cbn [assign deref tempColor1].
  eexists. eexists. split; [reflexivity |]. split; [reflexivity |].
  intros output v st. reflexivity.
Qed.

(** In the store that its construction leaves, a converter built for
    [colorMode] "flat" and [flatColor] "#ff000080", which parses to sRGB red
    with alpha 128/255, yields the linearized red with alpha 128/255 for
    every input value, and leaves that store as it was. *)
Theorem getColorConverter_flat_ignores_value
    (settings : ColorModeSettings) (minValue maxValue : num) (gl : Globals) :
  colorMode settings = "flat"%string ->
  flatColor settings = "#ff000080"%string ->
  (forall old, stringToRgbaWrites old "#ff000080"
               = rgba (ofZ 1) (ofZ 0) (ofZ 0) (div (ofZ 128) (ofZ 255))) ->
  exists convert gl',
    getColorConverter settings minValue maxValue gl = (gl', Returned convert) /\
    forall output v,
      convert output v gl'
      = (gl', rgba (SRGBToLinear (ofZ 1)) (SRGBToLinear (ofZ 0)) (SRGBToLinear (ofZ 0))
                   (div (ofZ 128) (ofZ 255))).
Proof.
  intros Hmode Hflat Hparse. unfold_factory.
  rewrite Hmode, Hflat. switch.
  unfold stringToRgba, rgbaToLinear. cbn [assign deref tempColor1].
  rewrite Hparse. eexists. eexists. split; [reflexivity |].
  intros output v. reflexivity.
Qed.

(** C10. [colorHasTransparency] answers, by mode: flat - the alpha of the
    parsed flat colour is below 1; gradient - the alpha of either parsed
    endpoint is below 1; colormap and rgb - [explicitAlpha] is below 1; rgba
    and rgba-fields - always true. Each parse goes through the scratch
    colour [tempColor]. *)
Theorem colorHasTransparency_by_mode (settings : ColorModeSettings) (gl : Globals) :
  let alphaBelowOne (c : ColorRGBA) := ltb (toNumber (a c)) (ofZ 1) in
  let low := stringToRgbaWrites (tempColor gl) (fst (gradient settings)) in
  let high := stringToRgbaWrites low (snd (gradient settings)) in
  (colorMode settings = "flat"%string ->
   snd (colorHasTransparency settings gl)
   = Some (alphaBelowOne (stringToRgbaWrites (tempColor gl) (flatColor settings)))) /\
  (colorMode settings = "gradient"%string ->
   snd (colorHasTransparency settings gl)
   = Some (alphaBelowOne low || alphaBelowOne high)) /\
  (colorMode settings = "colormap"%string \/ colorMode settings = "rgb"%string ->
   colorHasTransparency settings gl = (gl, Some (ltb (explicitAlpha settings) (ofZ 1)))) /\
  (colorMode settings = "rgba"%string \/ colorMode settings = "rgba-fields"%string ->
   colorHasTransparency settings gl = (gl, Some true)).
Proof.
  intros alphaBelowOne low high. unfold_classifier.
  repeat split.
  - intros Hmode. rewrite Hmode. switch. reflexivity.
  - intros Hmode. rewrite Hmode. switch.
    unfold stringToRgba. cbn [assign deref tempColor]. fold low.
    fold (alphaBelowOne low). destruct (alphaBelowOne low); [reflexivity |].
    cbn [assign deref tempColor snd orb]. reflexivity.
  - intros [Hmode|Hmode]; rewrite Hmode; switch; reflexivity.
  - intros [Hmode|Hmode]; rewrite Hmode; switch; reflexivity.
Qed.

End ColorModeFacts.

(** ** The module on concrete inputs *)

Lemma forallb_range (f : Z -> bool) (n : nat) :
  forallb f (map Z.of_nat (seq 0 n)) = true ->
  forall k, 0 <= k < Z.of_nat n -> f k = true.
Proof.
  intros H k Hk. rewrite forallb_forall in H. apply H.
  apply in_map_iff. exists (Z.to_nat k). split; [lia |]. apply in_seq. lia.
Qed.

(** A call with "rgba-fields" completes without an error and without a
    converter, against the fail-fast reading of C1. *)
Lemma getColorConverter_rgba_fields_no_error :
  let completion :=
    snd (Reference.getColorConverter (exampleSettings "rgba-fields") (ofZ 0) (ofZ 1)
           initialGlobals) in
  completion = ReturnedUndefined /\ ~ failsFast completion.
Proof.
  cbv zeta. split; [reflexivity |]. intros [message H]. discriminate H.
Qed.

Lemma getColorConverter_rgba_fields_witness :
  colorMode (exampleSettings "rgba-fields") = "rgba-fields"%string /\
  Reference.getColorConverter (exampleSettings "rgba-fields") (ofZ 0) (ofZ 1) initialGlobals
  = (initialGlobals, ReturnedUndefined).
Proof.
  split; [reflexivity |].
  apply (getColorConverter_rgba_fields_returns_undefined
           Reference.stringToRgbaWrites Reference.SRGBToLinear Reference.rgbaGradient
           Reference.clamp).
  reflexivity.
Defined.

(** C2 fails on the code: the flat closure keeps a reference to the shared
    object [tempColor1], so a converter built for opaque red yields
    half-transparent blue once a second flat converter has been built. *)
Theorem flat_converter_follows_tempColor1 :
  let red := settingsOf "flat" "#ff0000ff" ("#000000", "#ffffff")%string "turbo" (ofZ 1) in
  let blue := settingsOf "flat" "#0000ff80" ("#000000", "#ffffff")%string "turbo" (ofZ 1) in
  let first := Reference.getColorConverter red (ofZ 0) (ofZ 1) initialGlobals in
  let second := Reference.getColorConverter blue (ofZ 0) (ofZ 1) (fst first) in
  forall v,
    Reference.run first someColor v
    = Some (rgba (ofZ 1) (ofZ 0) (ofZ 0) (ofZ 1)) /\
    Reference.run (fst second, snd first) someColor v
    = Some (rgba (ofZ 0) (ofZ 0) (ofZ 1) (div (ofZ 128) (ofZ 255))).
Proof. intros red blue first second v. split; vm_compute; reflexivity. Qed.

(** With the degenerate range the input 0 is mapped to the gradient at
    fraction 0, not at fraction 1 as C3 has it. *)
Lemma gradient_degenerate_range_at_zero :
  let built :=
    Reference.getColorConverter (exampleSettings "gradient") (ofZ 0) (ofZ 0) initialGlobals in
  let low := tempColor1 (fst built) in
  let high := tempColor2 (fst built) in
  Reference.run built someColor (ofZ 0)
  = Some (Reference.rgbaGradient someColor low high (ofZ 0)) /\
  Reference.run built someColor (ofZ 0)
  <> Some (Reference.rgbaGradient someColor low high (ofZ 1)).
Proof. vm_compute. split; [reflexivity | discriminate]. Qed.

Lemma getColorConverter_gradient_degenerate_range_witness :
  colorMode (exampleSettings "gradient") = "gradient"%string /\
  isDouble (ofZ 1) /\ leb Number_EPSILON (ofZ 1) = true /\
  Reference.run
    (Reference.getColorConverter (exampleSettings "gradient") (ofZ 0) (ofZ 0) initialGlobals)
    someColor (ofZ 1)
  = Some (Reference.rgbaGradient someColor
            (rgba (ofZ 0) (ofZ 0) (ofZ 0) (ofZ 1)) (rgba (ofZ 1) (ofZ 1) (ofZ 1) (ofZ 0))
            (ofZ 1)).
Proof.
  split; [reflexivity |]. split; [reflexivity |]. split; [reflexivity |].
  destruct (getColorConverter_gradient_degenerate_range
              Reference.stringToRgbaWrites Reference.SRGBToLinear Reference.rgbaGradient
              Reference.clamp (exampleSettings "gradient") initialGlobals eq_refl)
    as (convert & gl' & Hbuilt & _ & _ & Hlow & Hhigh & Hrun & Habove & _).
  unfold Reference.run, Reference.getColorConverter. rewrite Hbuilt. cbn [fst snd].
  rewrite Hrun. cbn [snd]. rewrite Hlow, Hhigh.
  rewrite (Habove (ofZ 1) eq_refl eq_refl).
  reflexivity.
Defined.

(** At [pct = 0.00001] the offset in use is that of entry 0, while rounding
    would select entry 1, whose red channel differs. *)
Lemma turboLinearCached_index_not_rounded :
  let pct := dec 1 5 in
  let entry := turboEntry Reference.SRGBToLinear Reference.clamp in
  toInteger (turboOffset pct) = Some 0 /\
  toInteger (turboOffsetRounded pct) = Some 3 /\
  snd (Reference.turboLinearCached someColor pct initialGlobals)
  = rgba (entry 0 0) (entry 0 1) (entry 0 2) (ofZ 1) /\
  entry 0 0 <> entry 1 0.
Proof.
  cbv zeta. split; [reflexivity |]. split; [reflexivity |]. split.
  - apply (turboLinearCached_reads_entry Reference.SRGBToLinear Reference.clamp
             someColor (dec 1 5) initialGlobals 0 eq_refl ltac:(lia)).
    intros c Hc. assert (c = 0 \/ c = 1 \/ c = 2) as [-> | [-> | ->]] by lia; reflexivity.
  - vm_compute. discriminate.
Qed.

Lemma turboLinearCached_builds_once_and_truncates_witness :
  let entry := turboEntry Reference.SRGBToLinear Reference.clamp in
  snd (Reference.turboLinearCached someColor (dec 5 1) initialGlobals)
  = rgba (entry 32767 0) (entry 32767 1) (entry 32767 2) (ofZ 1).
Proof.
  cbv zeta.
  destruct (turboLinearCached_builds_once_and_truncates
              Reference.SRGBToLinear Reference.clamp someColor (dec 5 1) initialGlobals)
    as (_ & _ & _ & _ & _ & _ & _ & _ & Hentry).
  apply (Hentry 32767 ltac:(lia) eq_refl).
  intros c Hc. assert (c = 0 \/ c = 1 \/ c = 2) as [-> | [-> | ->]] by lia; reflexivity.
Defined.

Lemma getColorConverter_bluegold_raw_value_witness :
  colorMode (exampleSettings "colormap") = "colormap"%string /\
  colorMap (exampleSettings "colormap") = "bluegold"%string /\
  isDouble (dec 15 1) /\
  Reference.run
    (Reference.getColorConverter (exampleSettings "colormap") (ofZ 0) (ofZ 1) initialGlobals)
    someColor (dec 15 1)
  = Some (rgba (dec 1 1) (dec 2 1) (dec 3 1) (dec 5 1)).
Proof.
  split; [reflexivity |]. split; [reflexivity |]. split; [reflexivity |].
  destruct (getColorConverter_bluegold_raw_value
              Reference.stringToRgbaWrites Reference.SRGBToLinear Reference.rgbaGradient
              Reference.clamp (exampleSettings "colormap") (ofZ 0) (ofZ 1) initialGlobals
              eq_refl eq_refl)
    as (convert & Hbuilt & _ & _ & _ & _ & Hoff).
  unfold Reference.run, Reference.getColorConverter. rewrite Hbuilt. cbn [fst snd].
  destruct (Hoff someColor (dec 15 1) initialGlobals eq_refl) as (_ & _ & Hcolor).
  - intros k Hk.
    apply negb_true_iff.
    apply (forallb_range (fun k => negb (eqb (dec 15 1) (ofZ k))) 256).
    + vm_compute. reflexivity.
    + lia.
  - rewrite Hcolor. reflexivity.
Defined.

Lemma getColorConverter_flat_ignores_value_witness :
  colorMode (exampleSettings "flat") = "flat"%string /\
  flatColor (exampleSettings "flat") = "#ff000080"%string /\
  forall v,
    Reference.run
      (Reference.getColorConverter (exampleSettings "flat") (ofZ 0) (ofZ 1) initialGlobals)
      someColor v
    = Some (rgba (ofZ 1) (ofZ 0) (ofZ 0) (div (ofZ 128) (ofZ 255))).
Proof.
  split; [reflexivity |]. split; [reflexivity |]. intros v.
  destruct (getColorConverter_flat_ignores_value
              Reference.stringToRgbaWrites Reference.SRGBToLinear Reference.rgbaGradient
              Reference.clamp (exampleSettings "flat") (ofZ 0) (ofZ 1) initialGlobals
              eq_refl eq_refl (fun old => eq_refl))
    as (convert & gl' & Hbuilt & Hrun).
  unfold Reference.run, Reference.getColorConverter. rewrite Hbuilt. cbn [fst snd].
  rewrite Hrun. reflexivity.
Defined.

(** C9 fails on the code: a converter built for [colorMode] "flat" and
    [flatColor] "#ff000080" does ignore its input value, in every store, and
    yields the linearized red with alpha 128/255 as long as nothing else is
    built. It keeps a reference to the shared object [tempColor1], though,
    and not a colour of its own: once a gradient converter has been built,
    which parses its first endpoint "#000000ff" into that object, the same
    converter yields opaque black for every input value. *)
Theorem flat_converter_red_lost_after_later_build :
  let first :=
    Reference.getColorConverter (exampleSettings "flat") (ofZ 0) (ofZ 1) initialGlobals in
  let later :=
    Reference.getColorConverter (exampleSettings "gradient") (ofZ 0) (ofZ 1) (fst first) in
  flatColor (exampleSettings "flat") = "#ff000080"%string /\
  forall (output : ColorRGBA) (v v' : num) (st : Globals),
    Reference.run (st, snd first) output v = Reference.run (st, snd first) output v' /\
    Reference.run first output v
    = Some (rgba (ofZ 1) (ofZ 0) (ofZ 0) (div (ofZ 128) (ofZ 255))) /\
    Reference.run (fst later, snd first) output v
    = Some (rgba (ofZ 0) (ofZ 0) (ofZ 0) (ofZ 1)) /\
    Reference.run (fst later, snd first) output v <> Reference.run first output v.
Proof.
  intros first later. split; [reflexivity |]. intros output v v' st.
  assert (Hred : Reference.run first output v
                 = Some (rgba (ofZ 1) (ofZ 0) (ofZ 0) (div (ofZ 128) (ofZ 255))))
    by (vm_compute; reflexivity).
  assert (Hblack : Reference.run (fst later, snd first) output v
                   = Some (rgba (ofZ 0) (ofZ 0) (ofZ 0) (ofZ 1)))
    by (vm_compute; reflexivity).
  split; [reflexivity |]. split; [exact Hred |]. split; [exact Hblack |].
  rewrite Hred, Hblack. vm_compute. discriminate.
Qed.

Lemma colorHasTransparency_by_mode_witness :
  snd (Reference.colorHasTransparency (exampleSettings "flat") initialGlobals) = Some true /\
  snd (Reference.colorHasTransparency (exampleSettings "gradient") initialGlobals) = Some true /\
  snd (Reference.colorHasTransparency (exampleSettings "rgb") initialGlobals) = Some true /\
  snd (Reference.colorHasTransparency (exampleSettings "rgba-fields") initialGlobals)
  = Some true.
Proof.
  pose proof (fun s => colorHasTransparency_by_mode Reference.stringToRgbaWrites s
                         initialGlobals) as H.
  unfold Reference.colorHasTransparency. split; [| split; [| split]].
  - destruct (H (exampleSettings "flat")) as (Hflat & _). rewrite (Hflat eq_refl).
    reflexivity.
  - destruct (H (exampleSettings "gradient")) as (_ & Hgradient & _).
    rewrite (Hgradient eq_refl). reflexivity.
  - destruct (H (exampleSettings "rgb")) as (_ & _ & Halpha & _).
    rewrite (Halpha (or_intror eq_refl)). reflexivity.
  - destruct (H (exampleSettings "rgba-fields")) as (_ & _ & _ & Hrgba).
    rewrite (Hrgba (or_intror eq_refl)). reflexivity.
Defined.

Lemma getColorBgra_roundtrip_witness :
  isByte 128 /\ isByte 255 /\ isByte 1 /\ isByte 2 /\
  getColorBgra someColor (ofZ (pack 128 255 1 2)) = bytesOver255 128 255 1 2.
Proof.
  assert (B : forall x, 0 <= x <= 255 -> isByte x) by (intros x Hx; exact Hx).
  split; [apply B; lia |]. split; [apply B; lia |].
  split; [apply B; lia |]. split; [apply B; lia |].
  apply (proj2 (getColorBgra_roundtrip someColor)); apply B; lia.
Defined.

Lemma autoSelectColorSettings_priority_witness :
  let fields := ["foo"; "rgb"; "intensity"]%string in
  let result := autoSelectColorSettings (exampleSettings "flat") fields true None in
  Chosen fields true "rgb"%string /\
  colorField result = Some "rgb"%string /\ colorMode result = "rgb"%string.
Proof.
  cbv zeta.
  assert (Hchosen : Chosen ["foo"; "rgb"; "intensity"]%string true "rgb"%string).
  { apply ChosenPacked; [reflexivity |].
    exists ["foo"%string], ["intensity"%string]. split; [reflexivity |]. split.
    - left. reflexivity.
    - intros x [<- | []] [H | [H | []]]; discriminate H. }
  split; [exact Hchosen |].
  destruct (autoSelectColorSettings_priority (exampleSettings "flat")
              ["foo"; "rgb"; "intensity"]%string true None) as (_ & _ & H).
  destruct (H "rgb"%string Hchosen ltac:(discriminate)) as (Hfield & _ & Hmode).
  split; [exact Hfield |].
  apply Hmode; [| reflexivity]. intros [E _]. discriminate E.
Defined.

(** * Further properties of the module *)

(** ** The value range and the normalised fraction *)

Lemma Math_min_one_range x :
  Math_min x (ofZ 1) = NaN \/ leb (Math_min x (ofZ 1)) (ofZ 1) = true.
Proof.
  unfold Math_min, leb, SFleb.
  destruct (SFcompare x (ofZ 1)) as [[| |]|] eqn:E.
  - right. destruct (isNegZero x); [rewrite E; reflexivity | reflexivity].
  - right. rewrite E. reflexivity.
  - right. reflexivity.
  - left. reflexivity.
Qed.

Lemma fraction_range v lo delta :
  fraction v lo delta = NaN \/ inUnitInterval (fraction v lo delta).
Proof.
  unfold fraction. set (y := Math_min (div (sub v lo) delta) (ofZ 1)).
  destruct (Math_min_one_range (div (sub v lo) delta)) as [Hy|Hy]; fold y in Hy.
  - left. rewrite Hy. reflexivity.
  - unfold Math_max. destruct (SFcompare (ofZ 0) y) as [[| |]|] eqn:E.
    + right. split; reflexivity.
    + right. split; [| exact Hy]. unfold leb, SFleb. rewrite E. reflexivity.
    + right. split; reflexivity.
    + left. reflexivity.
Qed.

Lemma valueDelta_range hi lo :
  let delta := Math_max (sub hi lo) Number_EPSILON in
  (delta = NaN \/ leb Number_EPSILON delta = true) /\ eqb delta (ofZ 0) = false.
Proof.
  intros delta.
  assert (H : delta = NaN \/ leb Number_EPSILON delta = true).
  { subst delta. unfold Math_max.
    destruct (SFcompare (sub hi lo) Number_EPSILON) as [[| |]|] eqn:E.
    - right. destruct (isNegZero (sub hi lo)); [reflexivity |].
      unfold leb, SFleb. rewrite (SFcompare_antisym (sub hi lo) Number_EPSILON), E.
      reflexivity.
    - right. reflexivity.
    - right. unfold leb, SFleb.
      rewrite (SFcompare_antisym (sub hi lo) Number_EPSILON), E. reflexivity.
    - left. reflexivity. }
  split; [exact H |].
  destruct H as [-> | H]; [reflexivity |].
  destruct delta as [s|s| |s m e]; try discriminate H; try reflexivity.
  - destruct s; reflexivity.
  - destruct s; reflexivity.
Qed.

(** ** The unpacker on every number *)

Lemma byte_over_255_unit k :
  0 <= k <= 255 -> inUnitInterval (div (ofZ k) (ofZ 255)).
Proof.
  intros Hk.
  pose proof (forallb_range
                (fun k => leb (ofZ 0) (div (ofZ k) (ofZ 255))
                          && leb (div (ofZ k) (ofZ 255)) (ofZ 1)) 256) as H.
  specialize (H ltac:(vm_compute; reflexivity) k ltac:(lia)).
  apply andb_true_iff in H. exact H.
Qed.

Lemma byteOf_range i n : 0 <= byteOf i n <= 255.
Proof.
  unfold byteOf. pose proof (Z.mod_pos_bound (n / 2 ^ (8 * i)) (2 ^ 8) eq_refl) as H.
  change (2 ^ 8) with 256 in *. lia.
Qed.

Lemma bytesOver255_unit ca cr cg cb :
  0 <= ca <= 255 -> 0 <= cr <= 255 -> 0 <= cg <= 255 -> 0 <= cb <= 255 ->
  unitColor (bytesOver255 ca cr cg cb).
Proof.
  intros Ha Hr Hg Hb. unfold unitColor, unitChannel, bytesOver255, rgba. cbn [r g b a].
  repeat split; eexists; (split; [reflexivity | apply byte_over_255_unit; assumption]).
Qed.

Lemma getColorBgra_bytes output colorValue :
  getColorBgra output colorValue
  = bytesOver255 (byteOf 3 (ToUint32 colorValue)) (byteOf 2 (ToUint32 colorValue))
                 (byteOf 1 (ToUint32 colorValue)) (byteOf 0 (ToUint32 colorValue)).
Proof. apply getColorBgra_unpacks. Qed.

Lemma getColorBgra_pack output ca cr cg cb :
  isByte ca -> isByte cr -> isByte cg -> isByte cb ->
  getColorBgra output (ofZ (pack ca cr cg cb)) = bytesOver255 ca cr cg cb.
Proof.
  intros Ha Hr Hg Hb.
  destruct (pack_bytes ca cr cg cb Ha Hr Hg Hb) as (Hn & E24 & E16 & E8 & E0).
  rewrite getColorBgra_unpacks. cbv zeta. rewrite ToUint32_ofZ by exact Hn.
  rewrite E24, E16, E8, E0. reflexivity.
Qed.

(** X1. Whatever number it is given - NaN and the infinities included -
    [getColorBgra] leaves four numbers within [0, 1] in the output colour. *)
Theorem getColorBgra_unit_channels (output : ColorRGBA) (colorValue : num) :
  unitColor (getColorBgra output colorValue).
Proof.
  rewrite getColorBgra_bytes. apply bytesOver255_unit; apply byteOf_range.
Qed.

Lemma ofZ_neg p : Zpos (digits2_pos p) <= 53 -> ofZ (Zneg p) = SFopp (normal p).
Proof.
  intros Hd. unfold ofZ, normal, binary_normalize, binary_round, shl_align.
  assert (Hf : fexp prec emax (Zpos (digits2_pos p) + 0) - 0
               = - (53 - Zpos (digits2_pos p))).
  { unfold fexp, emin, prec, emax. lia. }
  rewrite Hf.
  destruct (53 - Zpos (digits2_pos p)) as [|j|j] eqn:Hj; try lia.
  - change (- 0) with 0. cbv beta iota.
    rewrite binary_round_aux_canonical by lia. reflexivity.
  - change (- Zpos j) with (Zneg j). cbv beta iota.
    assert (Hf' : fexp prec emax (Zpos (digits2_pos p) + 0) = Zneg j).
    { unfold fexp, emin, prec, emax. lia. }
    rewrite Hf'.
    rewrite binary_round_aux_canonical; [reflexivity | |].
    + rewrite digits2_pos_shift. lia.
    + pose proof (Pos2Z.is_pos (digits2_pos p)). lia.
Qed.

Lemma digits2_pos_le_53 p : Zpos p < 2 ^ 53 -> Zpos (digits2_pos p) <= 53.
Proof.
  intros Hp. pose proof (digits2_pos_bounds p) as [Blo _].
  destruct (Z_lt_le_dec 53 (Zpos (digits2_pos p))); [| lia].
  assert (2 ^ 53 <= 2 ^ (Zpos (digits2_pos p) - 1)) by (apply Z.pow_le_mono_r; lia).
  lia.
Qed.

Lemma ToUint32_ofZ_wraps n :
  - 2 ^ 53 < n < 2 ^ 53 -> ToUint32 (ofZ n) = n mod 2 ^ 32.
Proof.
  intros Hn. destruct n as [|p|p]; [reflexivity | |].
  - assert (Hd := digits2_pos_le_53 p ltac:(lia)).
    rewrite ofZ_pos by exact Hd.
    destruct (normal_value p Hd) as (j & Hj & _ & ->).
    assert (0 < 2 ^ j) by (apply Z.pow_pos_nonneg; lia).
    unfold ToUint32, signed, cond_Zopp. rewrite Z2Pos.id by lia.
    destruct (0 <=? - j) eqn:E.
    + apply Z.leb_le in E. assert (j = 0) by lia. subst j.
      change (- 0) with 0. change (2 ^ 0) with 1. rewrite !Z.mul_1_r. reflexivity.
    + rewrite Z.opp_involutive, Z.quot_mul by lia. reflexivity.
  - assert (Hd := digits2_pos_le_53 p ltac:(lia)).
    rewrite ofZ_neg by exact Hd.
    destruct (normal_value p Hd) as (j & Hj & _ & ->).
    assert (0 < 2 ^ j) by (apply Z.pow_pos_nonneg; lia).
    cbn [SFopp negb]. unfold ToUint32, signed, cond_Zopp. rewrite Z2Pos.id by lia.
    destruct (0 <=? - j) eqn:E.
    + apply Z.leb_le in E. assert (j = 0) by lia. subst j.
      change (- 0) with 0. change (2 ^ 0) with 1. rewrite !Z.mul_1_r. reflexivity.
    + rewrite Z.opp_involutive.
      replace (- (Zpos p * 2 ^ j)) with ((- Zpos p) * 2 ^ j) by lia.
      rewrite Z.quot_mul by lia. reflexivity.
Qed.

(** X2. A packed colour handed over as any integer of magnitude below 2^53
    - a signed 32-bit reading of the field, say - unpacks as its residue
    modulo 2^32 does; NaN, the infinities and the zeros unpack as 0, to
    (0, 0, 0, 0). *)
Theorem getColorBgra_wraps (output : ColorRGBA) :
  (forall n, - 2 ^ 53 < n < 2 ^ 53 ->
     getColorBgra output (ofZ n) = getColorBgra output (ofZ (n mod 2 ^ 32))) /\
  (forall v, (forall s m e, v <> S754_finite s m e) ->
     getColorBgra output v = rgba (ofZ 0) (ofZ 0) (ofZ 0) (ofZ 0)).
Proof.
  split.
  - intros n Hn.
    assert (Hm : 0 <= n mod 2 ^ 32 < 2 ^ 32) by (apply Z.mod_pos_bound; reflexivity).
    rewrite !getColorBgra_bytes, ToUint32_ofZ_wraps by exact Hn.
    rewrite (ToUint32_ofZ (n mod 2 ^ 32) Hm). reflexivity.
  - intros v Hv. destruct v as [s|s| |s m e]; try reflexivity.
    exfalso. apply (Hv s m e). reflexivity.
Qed.

(** ** The colour maps and the converters of the factory *)

(** Splits a hypothesis [getColorConverter ... = (gl', completion)] into the
    cases of the two [switch] statements. *)
Ltac factory_cases H :=
  unfold getColorConverter in H;
  repeat match type of H with
  | context [String.eqb ?x ?y] =>
      let E := fresh "E" in
      destruct (String.eqb x y) eqn:E;
      [apply String.eqb_eq in E | apply String.eqb_neq in E]
  end;
  unfold stringToRgba, rgbaToLinear in H; cbn [assign deref] in H.

Ltac unfold_turbo := unfold turboLinearCached.
Ltac unfold_linearized := unfold linearized.
Ltac unfold_rainbow := unfold rainbowLinear.

Section ColorMapFacts.

Variable SRGBToLinear : num -> num.
Variable clamp : num -> num -> num -> num.

Local Abbreviation turboLinearCached := (turboLinearCached SRGBToLinear clamp).
Local Abbreviation rainbowLinear := (rainbowLinear SRGBToLinear clamp).

(** X3. The lookup table is a transparent cache: what [turboLinearCached]
    yields for [pct] is the same whether or not an earlier call has already
    built the table, and a second call leaves the store of the first. *)
Theorem turboLinearCached_cache_is_transparent
    (output output' : ColorRGBA) (pct pct' : num) (gl : Globals) :
  let warmed := fst (turboLinearCached output' pct' gl) in
  snd (turboLinearCached output pct warmed) = snd (turboLinearCached output pct gl) /\
  fst (turboLinearCached output pct warmed) = warmed.
Proof.
  cbv zeta. unfold_turbo.
  destruct (TurboLookup gl) as [t|] eqn:Et; cbn [fst snd setTurboLookup TurboLookup];
    rewrite ?Et; cbn [fst snd]; split; reflexivity.
Qed.

(** X4. Every rainbow colour has alpha 1 and, among r, g and b, one channel
    that is exactly 0 and one that is exactly 1. When the clamp of [pct] is
    NaN no segment test succeeds and the last branch is taken: the colour is
    (1, SRGBToLinear(NaN), 0, 1). *)
Theorem rainbowLinear_saturated (output : ColorRGBA) (pct : num) :
  let color := rainbowLinear output pct in
  a color = Num (ofZ 1) /\
  In (Num (ofZ 0)) [r color; g color; b color] /\
  In (Num (ofZ 1)) [r color; g color; b color] /\
  (clamp pct (ofZ 0) (ofZ 1) = NaN ->
   color = rgba (ofZ 1) (SRGBToLinear NaN) (ofZ 0) (ofZ 1)).
Proof.
  cbv zeta. unfold_rainbow.
  split; [| split; [| split]].
  - repeat (destruct (_ : bool)); reflexivity.
  - destruct (leb _ _); [cbn; tauto |].
    destruct (eqb _ _); [cbn; tauto |].
    destruct (eqb _ _); [cbn; tauto |].
    destruct (eqb _ _); cbn; tauto.
  - destruct (leb _ _); [cbn; tauto |].
    destruct (eqb _ _); [cbn; tauto |].
    destruct (eqb _ _); [cbn; tauto |].
    destruct (eqb _ _); cbn; tauto.
  - intros ->. reflexivity.
Qed.

End ColorMapFacts.

Section ConverterFacts.

Variable stringToRgbaWrites : ColorRGBA -> string -> ColorRGBA.
Variable SRGBToLinear : num -> num.
Variable rgbaGradient : ColorRGBA -> ColorRGBA -> ColorRGBA -> num -> ColorRGBA.
Variable clamp : num -> num -> num -> num.

Local Abbreviation getColorConverter :=
  (getColorConverter stringToRgbaWrites SRGBToLinear rgbaGradient clamp).
Local Abbreviation colorHasTransparency := (colorHasTransparency stringToRgbaWrites).
Local Abbreviation linearized := (linearized SRGBToLinear).

(** X5. How a call of [getColorConverter] completes, for every settings
    value: it throws exactly when the mode is "colormap" and the colour map
    is none of turbo, rainbow, bluegold, and the message then names the map;
    it returns [undefined] exactly when the mode is none of flat, gradient,
    colormap, rgb, rgba; in every other case it returns a converter. *)
Theorem getColorConverter_completion
    (settings : ColorModeSettings) (minValue maxValue : num) (gl : Globals) :
  let completion := snd (getColorConverter settings minValue maxValue gl) in
  let knownMode := In (colorMode settings) ["flat"; "gradient"; "colormap"; "rgb"; "rgba"]%string in
  let knownMap := In (colorMap settings) ["turbo"; "rainbow"; "bluegold"]%string in
  (failsFast completion <-> colorMode settings = "colormap"%string /\ ~ knownMap) /\
  (failsFast completion ->
   completion = Thrown ("Unrecognized color map: " ++ colorMap settings)%string) /\
  (completion = ReturnedUndefined <-> ~ knownMode) /\
  ((exists convert, completion = Returned convert) <->
   knownMode /\ (colorMode settings = "colormap"%string -> knownMap)).
Proof.
  intros completion knownMode knownMap. subst completion knownMode knownMap.
  destruct (getColorConverter settings minValue maxValue gl) as [gl' completion] eqn:H.
  cbn [snd]. unfold failsFast. cbn [In].
  factory_cases H; injection H as <- <-;
    repeat split;
    try (intros [? ?]); try intros ?;
    repeat match goal with
    | H : exists _, _ |- _ => destruct H
    | H : _ /\ _ |- _ => destruct H
    end;
    try discriminate; try congruence;
    try (eexists; reflexivity);
    try tauto;
    try (exfalso; intuition congruence);
    intuition congruence.
Qed.

(** X6. What building a converter writes: [tempColor1] in the flat mode,
    [tempColor1] and [tempColor2] in the gradient mode, each with the
    linearized parse of the configured colour, and nothing in any other
    case. The lookup table and [tempColor] are never touched. *)
Theorem getColorConverter_construction_writes
    (settings : ColorModeSettings) (minValue maxValue : num) (gl : Globals) :
  let gl' := fst (getColorConverter settings minValue maxValue gl) in
  TurboLookup gl' = TurboLookup gl /\ tempColor gl' = tempColor gl /\
  (colorMode settings = "flat"%string ->
   tempColor1 gl' = linearized (stringToRgbaWrites (tempColor1 gl) (flatColor settings)) /\
   tempColor2 gl' = tempColor2 gl) /\
  (colorMode settings = "gradient"%string ->
   tempColor1 gl' = linearized (stringToRgbaWrites (tempColor1 gl) (fst (gradient settings))) /\
   tempColor2 gl' = linearized (stringToRgbaWrites (tempColor2 gl) (snd (gradient settings)))) /\
  (colorMode settings <> "flat"%string -> colorMode settings <> "gradient"%string ->
   gl' = gl).
Proof.
  intros gl'. subst gl'.
  destruct (getColorConverter settings minValue maxValue gl) as [gl' completion] eqn:H.
  cbn [fst].
  factory_cases H; injection H as <- _; cbn [TurboLookup tempColor tempColor1 tempColor2];
    repeat split; intros; try reflexivity; try congruence.
Qed.

(** X7. What running a converter writes: never one of the three scratch
    colours; the lookup table only when there was none, and then only the
    turbo converter builds it. A store that already has the table is left
    exactly as it was. *)
Theorem converter_invocation_writes
    (settings : ColorModeSettings) (minValue maxValue : num) (gl gl' : Globals)
    (convert : ColorConverter) :
  getColorConverter settings minValue maxValue gl = (gl', Returned convert) ->
  forall output v st,
    let st' := fst (convert output v st) in
    sameColors st st' /\
    (forall t, TurboLookup st = Some t -> st' = st) /\
    (st' <> st ->
     colorMode settings = "colormap"%string /\ colorMap settings = "turbo"%string /\
     TurboLookup st = None /\
     TurboLookup st' = Some (buildTurboLookup SRGBToLinear clamp)).
Proof.
  intros H output v st.
  factory_cases H; try discriminate H; injection H as <- <-; cbv zeta beta;
    try (cbn [fst]; repeat split; intros; try reflexivity; congruence).
  unfold_turbo.
  destruct (TurboLookup st) as [t|] eqn:Et; cbn [fst].
  - repeat split; intros; try reflexivity; congruence.
  - repeat split; intros; try reflexivity; try discriminate; assumption.
Qed.

Lemma converter_agrees_on_shared_objects
    (settings : ColorModeSettings) (minValue maxValue : num) (gl gl' : Globals)
    (convert : ColorConverter) :
  getColorConverter settings minValue maxValue gl = (gl', Returned convert) ->
  forall output v st1 st2,
    tempColor1 st1 = tempColor1 st2 -> tempColor2 st1 = tempColor2 st2 ->
    TurboLookup st1 = TurboLookup st2 ->
    snd (convert output v st1) = snd (convert output v st2).
Proof.
  intros H output v st1 st2 H1 H2 Ht.
  factory_cases H; try discriminate H; injection H as <- <-; cbv zeta beta; cbn [snd];
    try rewrite H1; try rewrite H2; try reflexivity.
  unfold_turbo.
  destruct (TurboLookup st1) as [t1|] eqn:Et1, (TurboLookup st2) as [t2|] eqn:Et2;
    try discriminate Ht; cbn [snd setTurboLookup TurboLookup]; rewrite ?Et1, ?Et2.
  - injection Ht as ->. reflexivity.
  - reflexivity.
Qed.

Lemma colorHasTransparency_frame (settings : ColorModeSettings) (gl : Globals) :
  let gl' := fst (colorHasTransparency settings gl) in
  tempColor1 gl' = tempColor1 gl /\ tempColor2 gl' = tempColor2 gl /\
  TurboLookup gl' = TurboLookup gl.
Proof.
  cbv zeta. unfold_classifier. unfold stringToRgba. cbn [assign deref].
  destruct (colorMode settings =? "flat")%string; [repeat split |].
  destruct (colorMode settings =? "gradient")%string.
  { destruct (ltb _ _); repeat split. }
  destruct (_ || _); [repeat split |].
  destruct (_ || _); repeat split.
Qed.

(** X8. A converter reads the store only through [tempColor1], [tempColor2]
    and the lookup table: in two stores that agree on these it yields the
    same colour. [colorHasTransparency] writes none of the three, so a call
    of it between the construction and the use of a converter changes
    nothing of what the converter yields. *)
Theorem converter_reads_shared_objects
    (settings : ColorModeSettings) (minValue maxValue : num) (gl gl' : Globals)
    (convert : ColorConverter) :
  getColorConverter settings minValue maxValue gl = (gl', Returned convert) ->
  (forall output v st1 st2,
     tempColor1 st1 = tempColor1 st2 -> tempColor2 st1 = tempColor2 st2 ->
     TurboLookup st1 = TurboLookup st2 ->
     snd (convert output v st1) = snd (convert output v st2)) /\
  (forall other output v st,
     snd (convert output v (fst (colorHasTransparency other st)))
     = snd (convert output v st)).
Proof.
  intros H. split.
  - apply (converter_agrees_on_shared_objects _ _ _ _ _ _ H).
  - intros other output v st.
    destruct (colorHasTransparency_frame other st) as (H1 & H2 & Ht).
    apply (converter_agrees_on_shared_objects _ _ _ _ _ _ H); assumption.
Qed.

(** X9. In the modes rgb and colormap the alpha a converter leaves is
    [explicitAlpha], whatever the value; so the answer of
    [colorHasTransparency] is exactly whether that alpha is below 1. *)
Theorem converter_alpha_is_explicit
    (settings : ColorModeSettings) (minValue maxValue : num) (gl gl' : Globals)
    (convert : ColorConverter) :
  getColorConverter settings minValue maxValue gl = (gl', Returned convert) ->
  colorMode settings = "rgb"%string \/ colorMode settings = "colormap"%string ->
  forall output v st st',
    a (snd (convert output v st)) = Num (explicitAlpha settings) /\
    snd (colorHasTransparency settings st')
    = Some (ltb (toNumber (a (snd (convert output v st)))) (ofZ 1)).
Proof.
  intros H Hmode output v st st'.
  assert (Ha : a (snd (convert output v st)) = Num (explicitAlpha settings)).
  { factory_cases H; try discriminate H; injection H as <- <-;
      try (exfalso; destruct Hmode; congruence); reflexivity. }
  split; [exact Ha |]. rewrite Ha. cbn [toNumber].
  unfold_classifier. destruct Hmode as [-> | ->]; switch; reflexivity.
Qed.

(** X10. In the flat mode, with a parser whose result does not depend on what
    the output colour held before, the answer of [colorHasTransparency] is
    exactly whether the alpha the converter leaves is below 1. *)
Theorem flat_converter_alpha_matches_classifier
    (settings : ColorModeSettings) (minValue maxValue : num) (gl gl' : Globals)
    (convert : ColorConverter) :
  getColorConverter settings minValue maxValue gl = (gl', Returned convert) ->
  colorMode settings = "flat"%string ->
  (forall old old', stringToRgbaWrites old (flatColor settings)
                    = stringToRgbaWrites old' (flatColor settings)) ->
  forall output v st',
    snd (colorHasTransparency settings st')
    = Some (ltb (toNumber (a (snd (convert output v gl')))) (ofZ 1)).
Proof.
  intros H Hmode Hparse output v st'.
  factory_cases H; try discriminate H; try congruence. injection H as <- <-.
  cbn [snd a deref tempColor1].
  unfold_classifier. rewrite Hmode. switch.
  unfold stringToRgba. cbn [assign deref tempColor snd]. unfold_linearized.
  cbn [a]. rewrite (Hparse (tempColor st') (tempColor1 gl)). reflexivity.
Qed.

(** X11. The rgba converter leaves four numbers within [0, 1] for every value;
    the rgb converter leaves the same r, g, b and replaces alpha by
    [explicitAlpha], so the alpha byte of a packed colour has no effect in
    the rgb mode. Neither writes to the store. *)
Theorem rgb_and_rgba_converters
    (rgbSettings rgbaSettings : ColorModeSettings) (minValue maxValue : num)
    (gl : Globals) :
  colorMode rgbSettings = "rgb"%string -> colorMode rgbaSettings = "rgba"%string ->
  exists rgbConvert rgbaConvert,
    getColorConverter rgbSettings minValue maxValue gl = (gl, Returned rgbConvert) /\
    getColorConverter rgbaSettings minValue maxValue gl = (gl, Returned rgbaConvert) /\
    (forall output v st,
       fst (rgbConvert output v st) = st /\ fst (rgbaConvert output v st) = st /\
       unitColor (snd (rgbaConvert output v st)) /\
       snd (rgbConvert output v st)
       = setAlpha (snd (rgbaConvert output v st)) (Num (explicitAlpha rgbSettings))) /\
    (forall output st ca ca' cr cg cb,
       isByte ca -> isByte ca' -> isByte cr -> isByte cg -> isByte cb ->
       snd (rgbConvert output (ofZ (pack ca cr cg cb)) st)
       = snd (rgbConvert output (ofZ (pack ca' cr cg cb)) st)).
Proof.
  intros Hrgb Hrgba. unfold_factory. rewrite Hrgb, Hrgba. switch.
  eexists. eexists. split; [reflexivity |]. split; [reflexivity |]. split.
  - intros output v st. cbn [fst snd]. repeat split.
    all: rewrite getColorBgra_bytes; apply bytesOver255_unit; apply byteOf_range.
  - intros output st ca ca' cr cg cb Ha Ha' Hr Hg Hb. cbn [snd].
    rewrite !getColorBgra_pack by assumption. reflexivity.
Qed.

(** X12. When the value or a bound of the range is NaN, the turbo converter
    finds no table element: it leaves [undefined] in r, g and b, and
    [explicitAlpha] in alpha. *)
Theorem turbo_converter_on_NaN
    (settings : ColorModeSettings) (minValue maxValue : num) (gl : Globals) :
  colorMode settings = "colormap"%string -> colorMap settings = "turbo"%string ->
  exists convert,
    getColorConverter settings minValue maxValue gl = (gl, Returned convert) /\
    forall output v st,
      v = NaN \/ minValue = NaN \/ maxValue = NaN ->
      snd (convert output v st)
      = mkColor Undefined Undefined Undefined (Num (explicitAlpha settings)).
Proof.
  intros Hmode Hmap. unfold_factory. rewrite Hmode, Hmap. switch.
  eexists. split; [reflexivity |].
  intros output v st Hnan. cbv beta.
  assert (Hf : fraction v minValue (Math_max (sub maxValue minValue) Number_EPSILON) = NaN).
  { unfold fraction. destruct Hnan as [-> | [-> | ->]].
    - reflexivity.
    - destruct v; reflexivity.
    - assert (Hd : Math_max (sub NaN minValue) Number_EPSILON = NaN) by reflexivity.
      rewrite Hd. destruct (sub v minValue); reflexivity. }
  rewrite Hf. unfold_turbo.
  destruct (TurboLookup st); reflexivity.
Qed.

(** X13. In the gradient mode, for every range - inverted and degenerate ones
    included - the divisor of the normalisation is never zero (it is NaN or
    at least [Number.EPSILON]), and the fraction handed to [rgbaGradient] is
    NaN or lies within [0, 1]. *)
Theorem gradient_converter_fraction
    (settings : ColorModeSettings) (minValue maxValue : num) (gl : Globals) :
  colorMode settings = "gradient"%string ->
  let valueDelta := Math_max (sub maxValue minValue) Number_EPSILON in
  exists convert gl',
    getColorConverter settings minValue maxValue gl = (gl', Returned convert) /\
    eqb valueDelta (ofZ 0) = false /\
    (valueDelta = NaN \/ leb Number_EPSILON valueDelta = true) /\
    forall output v st,
      let frac :=
        Math_max (ofZ 0) (Math_min (div (sub v minValue) valueDelta) (ofZ 1)) in
      convert output v st
      = (st, rgbaGradient output (tempColor1 st) (tempColor2 st) frac) /\
      (frac = NaN \/ inUnitInterval frac).
Proof.
  intros Hmode valueDelta. unfold_factory. rewrite Hmode. switch.
  unfold stringToRgba, rgbaToLinear. cbn [assign deref].
  eexists. eexists. split; [reflexivity |].
  destruct (valueDelta_range maxValue minValue) as [Hrange Hzero]. fold valueDelta in Hrange, Hzero.
  split; [exact Hzero |]. split; [exact Hrange |].
  intros output v st. cbv zeta. split; [reflexivity |].
  apply (fraction_range v minValue valueDelta).
Qed.

End ConverterFacts.

(** ** The bluegold table *)

Lemma blueGoldColormapData_bytes r0 g0 b0 :
  In (r0, g0, b0) blueGoldColormapData ->
  0 <= r0 <= 255 /\ 0 <= g0 <= 255 /\ 0 <= b0 <= 255.
Proof.
  intros Hin.
  assert (H : forallb (fun '(r0, g0, b0) =>
                         (0 <=? r0) && (r0 <=? 255) && (0 <=? g0) && (g0 <=? 255)
                         && (0 <=? b0) && (b0 <=? 255)) blueGoldColormapData = true)
    by (vm_compute; reflexivity).
  rewrite forallb_forall in H. specialize (H _ Hin). cbv beta iota in H.
  repeat (apply andb_true_iff in H as [H ?]).
  repeat match goal with
  | H : (_ <=? _) = true |- _ => apply Z.leb_le in H
  end. lia.
Qed.

(** X14. A bluegold lookup either leaves the output colour exactly as it was
    or leaves four numbers within [0, 1], with alpha 1: no row of the table
    holds a value outside 0..255. *)
Theorem bluegoldLookup_unit_or_unchanged (output : ColorRGBA) (pct : num) :
  bluegoldLookup output pct = output \/
  (unitColor (bluegoldLookup output pct) /\ a (bluegoldLookup output pct) = Num (ofZ 1)).
Proof.
  unfold bluegoldLookup, index.
  destruct (toInteger pct) as [k|]; [| left; reflexivity].
  destruct ((0 <=? k) && (k <? Z.of_nat (length blueGoldColormapData)));
    [| left; reflexivity].
  destruct (blueGoldColormapData !! Z.to_nat k) as [[[r0 g0] b0]|] eqn:E;
    [| left; reflexivity].
  right. apply list_elem_of_lookup_2, list_elem_of_In in E.
  destruct (blueGoldColormapData_bytes r0 g0 b0 E) as (Hr & Hg & Hb).
  split; [| reflexivity].
  unfold unitColor, unitChannel. cbn [r g b a].
  repeat split; eexists; (split; [reflexivity |]);
    try (apply byte_over_255_unit; assumption).
  split; reflexivity.
Qed.

(** ** The field heuristics *)

Lemma Chosen_In fields packed field : Chosen fields packed field -> In field fields.
Proof.
  intros H.
  destruct H as [f Hp (before & after & E & _) | f Hp (before & after & E & _)
                | Hp Hi Hz | f rest Hp Hi Hz E].
  - rewrite E. apply in_or_app. right. left. reflexivity.
  - rewrite E. apply in_or_app. right. left. reflexivity.
  - exact Hz.
  - rewrite E. left. reflexivity.
Qed.

(** X15. [bestColorByField] never makes a name up: what it returns is an
    element of the list, and it returns [undefined] only for the empty
    list. *)
Theorem bestColorByField_member (fields : list string) (supportsPacked : bool) :
  (forall field, bestColorByField fields supportsPacked = Some field -> In field fields) /\
  (bestColorByField fields supportsPacked = None <-> fields = []).
Proof.
  split.
  - intros field H. apply (Chosen_In fields supportsPacked), bestColorByField_sound, H.
  - split.
    + intros H. unfold bestColorByField in H.
      destruct (if supportsPacked then _ else _); [discriminate H |].
      destruct (find _ fields); [discriminate H |].
      destruct (find _ fields); [discriminate H |].
      destruct fields; [reflexivity | discriminate H].
    + intros ->. apply bestColorByField_nil.
Qed.

(** X16. Without support for the packed modes a field named rgb or rgba gets
    no priority, over an intensity field say, yet as the first field of a
    list without intensity or z fields it is still the best field. *)
Theorem bestColorByField_without_packed_support (fields : list string) (field : string) :
  bestColorByField fields false = Some field ->
  Named ["rgb"; "rgba"]%string field ->
  noneWith (Named ["intensity"; "i"]%string) fields /\ ~ In "z"%string fields /\
  exists rest, fields = field :: rest.
Proof.
  intros H Hn. apply bestColorByField_sound in H.
  destruct H as [f Hp Hf | f Hp (before & after & E & Hi & _) | Hp Hi Hz | f rest Hp Hi Hz E].
  - discriminate Hp.
  - exfalso. unfold Named in *. cbn [In] in *.
    destruct Hn as [Hn | [Hn | []]], Hi as [Hi | [Hi | []]]; congruence.
  - exfalso. unfold Named in Hn. cbn in Hn. destruct Hn as [Hn | [Hn | []]]; discriminate Hn.
  - split; [exact Hi |]. split; [exact Hz |]. exists rest. exact E.
Qed.

(** X17. [hasSeparateRgbaFields] looks at the set of names only: it holds
    exactly when red, green, blue and alpha all occur, in any order and any
    number of times, so two lists with the same elements get the same
    answer, and adding fields never turns it off. *)
Theorem hasSeparateRgbaFields_set (fields fields' : list string) :
  (hasSeparateRgbaFields fields = true <-> SeparateRgbaFields fields) /\
  ((forall x, In x fields <-> In x fields') ->
   hasSeparateRgbaFields fields = hasSeparateRgbaFields fields') /\
  (hasSeparateRgbaFields fields = true ->
   hasSeparateRgbaFields (fields' ++ fields) = true).
Proof.
  split; [apply hasSeparateRgbaFields_spec |]. split.
  - intros Hsame.
    destruct (hasSeparateRgbaFields fields) eqn:E, (hasSeparateRgbaFields fields') eqn:E';
      try reflexivity; exfalso.
    + apply hasSeparateRgbaFields_spec in E. destruct E as (H1 & H2 & H3 & H4).
      assert (hasSeparateRgbaFields fields' = true); [| congruence].
      apply hasSeparateRgbaFields_spec. repeat split; apply Hsame; assumption.
    + apply hasSeparateRgbaFields_spec in E'. destruct E' as (H1 & H2 & H3 & H4).
      assert (hasSeparateRgbaFields fields = true); [| congruence].
      apply hasSeparateRgbaFields_spec. repeat split; apply Hsame; assumption.
  - intros H. apply hasSeparateRgbaFields_spec in H. destruct H as (H1 & H2 & H3 & H4).
    apply hasSeparateRgbaFields_spec. repeat split; apply in_or_app; right; assumption.
Qed.

(** X18. [autoSelectColorSettings] writes to [colorField], [colorMode] and
    [colorMap] only, and running it a second time on its own result, with
    the same fields and flags, changes nothing more. *)
Theorem autoSelectColorSettings_idempotent
    (output : ColorModeSettings) (fields : list string)
    (supportsPacked : bool) (supportsRgbaFields : option bool) :
  let result := autoSelectColorSettings output fields supportsPacked supportsRgbaFields in
  flatColor result = flatColor output /\ gradient result = gradient output /\
  explicitAlpha result = explicitAlpha output /\
  minValue result = minValue output /\ maxValue result = maxValue output /\
  (colorMap result = colorMap output \/ colorMap result = "turbo"%string) /\
  autoSelectColorSettings result fields supportsPacked supportsRgbaFields = result.
Proof.
  cbv zeta. unfold autoSelectColorSettings.
  destruct (bestColorByField fields supportsPacked) as [best|]; cbn [truthy negb].
  - destruct (best =? "")%string; cbn [negb].
    + repeat split; try reflexivity. left. reflexivity.
    + destruct (toLowerCase best =? "rgb")%string;
        [| destruct (toLowerCase best =? "rgba")%string];
        destruct supportsRgbaFields as [[|]|];
        try destruct (hasSeparateRgbaFields fields);
        repeat split; try reflexivity; try (left; reflexivity); right; reflexivity.
  - repeat split; try reflexivity. left. reflexivity.
Qed.

(** X19. The modes [autoSelectColorSettings] can set: when it changes the
    settings at all the mode becomes rgb, rgba, colormap or rgba-fields,
    never flat or gradient, and it becomes rgba-fields exactly when the
    rgba-fields mode is supported and the four separate fields are there. *)
Theorem autoSelectColorSettings_modes
    (output : ColorModeSettings) (fields : list string)
    (supportsPacked : bool) (supportsRgbaFields : option bool) :
  let result := autoSelectColorSettings output fields supportsPacked supportsRgbaFields in
  result <> output ->
  In (colorMode result) ["rgb"; "rgba"; "colormap"; "rgba-fields"]%string /\
  (colorMode result = "rgba-fields"%string <->
   supportsRgbaFields = Some true /\ SeparateRgbaFields fields) /\
  (exists field, colorField result = Some field /\ In field fields /\ field <> ""%string).
Proof.
  cbv zeta. intros Hchanged.
  destruct (bestColorByField fields supportsPacked) as [best|] eqn:Eb.
  2: { exfalso. apply Hchanged. unfold autoSelectColorSettings. rewrite Eb. reflexivity. }
  destruct (String.eqb_spec best "") as [-> | Hne].
  { exfalso. apply Hchanged. unfold autoSelectColorSettings. rewrite Eb. reflexivity. }
  assert (Hin : In best fields)
    by (apply (Chosen_In fields supportsPacked), bestColorByField_sound, Eb).
  rewrite (autoSelectColorSettings_chosen _ _ _ _ _ Eb Hne) in *. cbv zeta.
  assert (Hover : (match supportsRgbaFields with
                   | Some true => hasSeparateRgbaFields fields
                   | _ => false
                   end) = true
                  <-> supportsRgbaFields = Some true /\ SeparateRgbaFields fields).
  { rewrite <- hasSeparateRgbaFields_spec.
    destruct supportsRgbaFields as [[|]|]; split;
      try discriminate; try tauto; intros [E _]; discriminate E. }
  destruct (match supportsRgbaFields with
            | Some true => hasSeparateRgbaFields fields
            | _ => false
            end) eqn:Eo.
  - split; [cbn; tauto |]. split.
    + split; [intros _; apply Hover; reflexivity | intros _; reflexivity].
    + exists best. split; [| split; assumption].
      destruct (toLowerCase best =? "rgb")%string;
        [| destruct (toLowerCase best =? "rgba")%string]; reflexivity.
  - assert (Hno : ~ (supportsRgbaFields = Some true /\ SeparateRgbaFields fields)).
    { intros Hyes. apply Hover in Hyes. discriminate Hyes. }
    destruct (toLowerCase best =? "rgb")%string;
      [| destruct (toLowerCase best =? "rgba")%string];
      cbn [colorMode colorField setColorMode setColorField setColorMap];
      (split; [cbn; tauto |]);
      (split; [split; [discriminate | intros Hyes; contradiction] |]);
      exists best; repeat split; assumption.
Qed.

(** ** The settings-tree fields *)

Ltac unfold_fields := unfold colorModeSettingsFields, effectiveColorMode, includes, NEEDS_MIN_MAX.

(** Splits on every string test of the goal. *)
Ltac string_cases :=
  repeat match goal with
  | |- context [String.eqb ?x ?y] =>
      let E := fresh "E" in
      destruct (String.eqb x y) eqn:E;
      [apply String.eqb_eq in E | apply String.eqb_neq in E]
  end.

Lemma getProperty_setProperty key key' field fields :
  getProperty key (setProperty key' field fields)
  = if (key' =? key)%string then Some field else getProperty key fields.
Proof.
  unfold getProperty. induction fields as [|[k f] rest IH]; cbn [setProperty find fst].
  - destruct (key' =? key)%string; reflexivity.
  - destruct (k =? key')%string eqn:Ek.
    + apply String.eqb_eq in Ek. subst k. cbn [find fst].
      destruct (key' =? key)%string; reflexivity.
    + cbn [find fst]. destruct (k =? key)%string eqn:Ek'.
      * apply String.eqb_eq in Ek'. subst k. rewrite String.eqb_sym, Ek. reflexivity.
      * exact IH.
Qed.

Ltac unfold_options := unfold colorModeOptions.

Section SettingsFieldsFacts.

Variable t : string -> string.

Local Abbreviation colorModeSettingsFields := (colorModeSettingsFields t).
Local Abbreviation colorModeOptions := (colorModeOptions t).

(** The keys of the fields object, in insertion order. *)
Lemma colorModeSettingsFields_keys msgFields config defaultGradient modifiers :
  let mode := effectiveColorMode config modifiers in
  keys (colorModeSettingsFields msgFields config defaultGradient modifiers)
  = ("colorMode"
     :: if (mode =? "flat") then ["flatColor"]
        else if (mode =? "rgba-fields") then []
        else (match msgFields with Some _ => ["colorField"] | None => [] end)
             ++ (if (mode =? "gradient") then ["gradient"]
                 else if (mode =? "colormap") then ["colorMap"] else [])
             ++ (if negb (isTrue (hideExplicitAlpha modifiers))
                    && ((mode =? "colormap") || (mode =? "rgb"))
                 then ["explicitAlpha"] else [])
             ++ (if (mode =? "gradient") || (mode =? "colormap")
                 then ["minValue"; "maxValue"] else []))%string.
Proof.
  cbv zeta. unfold_fields. 
  set (mode := match Config.colorMode config with Some m => m | None => _ end).
  cbn [existsb]. rewrite orb_false_r.
  destruct (mode =? "flat")%string; [reflexivity |].
  destruct (mode =? "rgba-fields")%string; [reflexivity |]. cbn [negb].
  destruct msgFields as [fs|];
    destruct (mode =? "gradient")%string;
    destruct (mode =? "colormap")%string;
    destruct (mode =? "rgb")%string;
    destruct (isTrue (hideExplicitAlpha modifiers));
    reflexivity.
Qed.

(** X20. Which controls [colorModeSettingsFields] builds, for every
    configuration. The mode selector comes first and no key occurs twice.
    The flat-colour control is there exactly in the flat mode; the gradient
    and colour-map controls exactly in their modes; the opacity control
    exactly in the modes colormap and rgb unless it is hidden; the two range
    controls exactly in the modes gradient and colormap; the field selector
    exactly when the message fields are known and the mode is neither flat
    nor rgba-fields. In the rgba-fields mode the mode selector is the only
    control. *)
Theorem colorModeSettingsFields_controls msgFields config defaultGradient modifiers :
  let mode := effectiveColorMode config modifiers in
  let shown :=
    keys (colorModeSettingsFields msgFields config defaultGradient modifiers) in
  (exists rest, shown = "colorMode"%string :: rest) /\
  List.NoDup shown /\
  (In "flatColor"%string shown <-> mode = "flat"%string) /\
  (In "gradient"%string shown <-> mode = "gradient"%string) /\
  (In "colorMap"%string shown <-> mode = "colormap"%string) /\
  (In "explicitAlpha"%string shown <->
   hideExplicitAlpha modifiers <> Some true /\
   (mode = "colormap"%string \/ mode = "rgb"%string)) /\
  (In "minValue"%string shown <-> mode = "gradient"%string \/ mode = "colormap"%string) /\
  (In "maxValue"%string shown <-> mode = "gradient"%string \/ mode = "colormap"%string) /\
  (In "colorField"%string shown <->
   msgFields <> None /\ mode <> "flat"%string /\ mode <> "rgba-fields"%string) /\
  (mode = "rgba-fields"%string -> shown = ["colorMode"%string]).
Proof.
  intros mode shown. subst shown.
  rewrite colorModeSettingsFields_keys. fold mode.
  assert (Hhide : isTrue (hideExplicitAlpha modifiers) = true
                  <-> hideExplicitAlpha modifiers = Some true).
  { destruct (hideExplicitAlpha modifiers) as [[|]|]; cbn; split; congruence. }
  split; [eexists; reflexivity |].
  destruct (isTrue (hideExplicitAlpha modifiers)) eqn:Eh;
    [assert (Hh : hideExplicitAlpha modifiers = Some true) by (apply Hhide; reflexivity)
    |assert (Hh : hideExplicitAlpha modifiers <> Some true)
       by (intros Hyes; apply Hhide in Hyes; discriminate Hyes)];
    clear Hhide; cbn [negb andb];
    string_cases; destruct msgFields as [fs|]; cbn [app In orb];
    (split; [repeat (constructor; [cbn [In]; intuition discriminate |]); constructor |]);
    repeat split; intros;
    repeat match goal with
    | H : _ \/ _ |- _ => destruct H
    | H : _ /\ _ |- _ => destruct H
    | H : False |- _ => destruct H
    end;
    try discriminate; try congruence; try reflexivity; try tauto;
    try (left; congruence); try (right; congruence);
    try (exfalso; congruence).
Qed.

Lemma colorModeSettingsFields_mode_selector msgFields config defaultGradient modifiers :
  getProperty "colorMode" (colorModeSettingsFields msgFields config defaultGradient modifiers)
  = Some (SelectInput (t "threeDee:colorMode")
            (Some (effectiveColorMode config modifiers))
            (colorModeOptions msgFields modifiers)).
Proof.
  unfold_fields. cbv zeta.
  set (mode := match Config.colorMode config with Some m => m | None => _ end).
  set (options := colorModeOptions msgFields modifiers).
  destruct (mode =? "flat")%string;
    [rewrite !getProperty_setProperty; reflexivity |].
  destruct (mode =? "rgba-fields")%string; [reflexivity |]. cbn [negb existsb].
  destruct msgFields as [fs|];
    destruct (mode =? "gradient")%string;
    destruct (mode =? "colormap")%string;
    destruct (mode =? "rgb")%string;
    destruct (isTrue (hideExplicitAlpha modifiers));
    cbn [negb andb orb];
    rewrite ?getProperty_setProperty; reflexivity.
Qed.

Lemma colorModeSettingsFields_field_selector fs config defaultGradient modifiers :
  effectiveColorMode config modifiers <> "flat"%string ->
  effectiveColorMode config modifiers <> "rgba-fields"%string ->
  getProperty "colorField" (colorModeSettingsFields (Some fs) config defaultGradient modifiers)
  = Some (SelectInput (t "threeDee:colorBy")
            (match Config.colorField config with
             | Some field => Some field
             | None => bestColorByField fs (supportsPackedRgbModes modifiers)
             end)
            (map (fun field => {| label := field; optionValue := field |}) fs)).
Proof.
  unfold_fields. cbv zeta.
  set (mode := match Config.colorMode config with Some m => m | None => _ end).
  set (options := colorModeOptions (Some fs) modifiers).
  intros Hflat Hfields.
  apply String.eqb_neq in Hflat, Hfields. rewrite Hflat, Hfields. cbn [negb existsb].
  destruct (mode =? "gradient")%string;
    destruct (mode =? "colormap")%string;
    destruct (mode =? "rgb")%string;
    destruct (isTrue (hideExplicitAlpha modifiers));
    cbn [negb andb orb];
    rewrite ?getProperty_setProperty; reflexivity.
Qed.

Lemma colorModeOptions_values msgFields modifiers :
  map optionValue (colorModeOptions msgFields modifiers)
  = ["colormap"%string; "gradient"%string]
    ++ (if isTrue (hideFlatColor modifiers) then [] else ["flat"%string])
    ++ match msgFields with
       | Some ((_ :: _) as fs) =>
           (if supportsPackedRgbModes modifiers then ["rgb"%string; "rgba"%string] else [])
           ++ (if supportsRgbaFieldsMode modifiers && hasSeparateRgbaFields fs
               then ["rgba-fields"%string] else [])
       | _ => []
       end.
Proof.
  unfold_options.
  destruct (isTrue (hideFlatColor modifiers)); cbn [negb];
    destruct msgFields as [[|f fs]|]; try reflexivity;
    destruct (supportsPackedRgbModes modifiers);
    destruct (supportsRgbaFieldsMode modifiers && hasSeparateRgbaFields (f :: fs));
    reflexivity.
Qed.

(** X21. What the colour-mode selector offers, for every configuration: it
    shows the configured mode, or flat (gradient when the flat colour is
    hidden) when none is configured. It always offers colormap and gradient;
    flat unless hidden; rgb and rgba exactly when there is at least one
    message field and the packed modes are supported; rgba-fields exactly
    when that mode is supported and red, green, blue and alpha are all among
    the fields. It offers nothing else. *)
Theorem colorModeSettingsFields_mode_options msgFields config defaultGradient modifiers :
  let selector :=
    getProperty "colorMode"
      (colorModeSettingsFields msgFields config defaultGradient modifiers) in
  let offered := optionValues selector in
  let nonEmpty := exists f fs, msgFields = Some (f :: fs) in
  selectedValue selector
  = Some (match Config.colorMode config with
          | Some mode => mode
          | None => if isTrue (hideFlatColor modifiers) then "gradient" else "flat"
          end)%string /\
  In "colormap"%string offered /\ In "gradient"%string offered /\
  (In "flat"%string offered <-> hideFlatColor modifiers <> Some true) /\
  (In "rgb"%string offered <-> nonEmpty /\ supportsPackedRgbModes modifiers = true) /\
  (In "rgba"%string offered <-> nonEmpty /\ supportsPackedRgbModes modifiers = true) /\
  (In "rgba-fields"%string offered <->
   exists fs, msgFields = Some fs /\ supportsRgbaFieldsMode modifiers = true /\
              SeparateRgbaFields fs) /\
  (forall mode, In mode offered ->
     In mode ["colormap"; "gradient"; "flat"; "rgb"; "rgba"; "rgba-fields"]%string).
Proof.
  intros selector offered nonEmpty. subst selector offered nonEmpty.
  rewrite colorModeSettingsFields_mode_selector. cbn [selectedValue optionValues].
  split; [reflexivity |]. rewrite colorModeOptions_values.
  assert (Hhide : isTrue (hideFlatColor modifiers) = true
                  <-> hideFlatColor modifiers = Some true).
  { destruct (hideFlatColor modifiers) as [[|]|]; cbn; split; congruence. }
  assert (Hnil : ~ SeparateRgbaFields []) by (intros (H & _); exact H).
  destruct (isTrue (hideFlatColor modifiers));
    [assert (Hh : hideFlatColor modifiers = Some true) by (apply Hhide; reflexivity)
    |assert (Hh : hideFlatColor modifiers <> Some true)
       by (intros Hyes; apply Hhide in Hyes; discriminate Hyes)];
    clear Hhide;
    (destruct msgFields as [[|f fs]|];
     [ | pose proof (hasSeparateRgbaFields_spec (f :: fs)) as Hs;
         destruct (supportsPackedRgbModes modifiers);
         destruct (supportsRgbaFieldsMode modifiers);
         destruct (hasSeparateRgbaFields (f :: fs)) | ]);
    cbn [app In andb];
    repeat split; intros;
    repeat match goal with
    | H : _ \/ _ |- _ => destruct H
    | H : _ /\ _ |- _ => destruct H
    | H : exists _, _ |- _ => destruct H
    | H : False |- _ => destruct H
    | H : Some _ = Some _ |- _ => injection H as H
    end;
    subst;
    try discriminate; try congruence; try reflexivity; try tauto;
    try (eexists; eexists; reflexivity);
    try (exfalso; intuition congruence);
    try (eexists; repeat split; [reflexivity | apply Hs; reflexivity]);
    try (exfalso; match goal with H : SeparateRgbaFields _ |- _ => apply Hs in H end;
         discriminate);
    eexists; (split; [reflexivity |]); (split; [reflexivity | apply Hs; reflexivity]).
Qed.

(** X22. The mode that [autoSelectColorSettings] sets is one the selector
    offers, when the packed modes are supported: built for the same message
    fields and flags from the settings it has changed, the selector lists
    the new mode among its options and shows it as its value. *)
Theorem autoSelectColorSettings_mode_is_offered
    (output : ColorModeSettings) (fields : list string) (supportsRgbaFields : bool)
    (hideFlat hideAlpha : option bool) (defaultGradient : string * string) :
  let result := autoSelectColorSettings output fields true (Some supportsRgbaFields) in
  let selector :=
    getProperty "colorMode"
      (colorModeSettingsFields (Some fields) (configOf result) defaultGradient
         {| supportsPackedRgbModes := true; supportsRgbaFieldsMode := supportsRgbaFields;
            hideFlatColor := hideFlat; hideExplicitAlpha := hideAlpha |}) in
  result <> output ->
  selectedValue selector = Some (colorMode result) /\
  In (colorMode result) (optionValues selector).
Proof.
  intros result selector Hchanged. subst selector.
  rewrite colorModeSettingsFields_mode_selector. cbn [selectedValue optionValues].
  split; [reflexivity |]. rewrite colorModeOptions_values.
  cbn [supportsPackedRgbModes supportsRgbaFieldsMode hideFlatColor].
  subst result. unfold autoSelectColorSettings in *.
  destruct (bestColorByField fields true) as [best|] eqn:Eb;
    [| exfalso; apply Hchanged; reflexivity].
  cbn [truthy] in *. destruct (best =? "")%string; cbn [negb] in *;
    [exfalso; apply Hchanged; reflexivity |].
  destruct fields as [|f fs]; [rewrite bestColorByField_nil in Eb; discriminate Eb |].
  clear Hchanged. rewrite !in_app_iff.
  destruct supportsRgbaFields; [destruct (hasSeparateRgbaFields (f :: fs)) |];
    (destruct (toLowerCase best =? "rgb")%string;
     [| destruct (toLowerCase best =? "rgba")%string]);
    cbn [colorMode setColorMode setColorField setColorMap andb app In]; tauto.
Qed.

(** X23. The field selector, when the message fields are known and the mode is
    neither flat nor rgba-fields: it offers exactly the message fields, in
    their order, and shows the configured colour field or, when none is
    configured, the best field - the very field [autoSelectColorSettings]
    stores when it changes the settings. *)
Theorem colorModeSettingsFields_field_default
    (fs : list string) (config : Config.t) (defaultGradient : string * string)
    (modifiers : Modifiers) :
  effectiveColorMode config modifiers <> "flat"%string ->
  effectiveColorMode config modifiers <> "rgba-fields"%string ->
  let selector :=
    getProperty "colorField"
      (colorModeSettingsFields (Some fs) config defaultGradient modifiers) in
  optionValues selector = fs /\
  (forall field, Config.colorField config = Some field ->
     selectedValue selector = Some field) /\
  (Config.colorField config = None ->
   selectedValue selector = bestColorByField fs (supportsPackedRgbModes modifiers) /\
   forall output supportsRgbaFields,
     let result :=
       autoSelectColorSettings output fs (supportsPackedRgbModes modifiers)
         supportsRgbaFields in
     result <> output -> colorField result = selectedValue selector).
Proof.
  intros Hflat Hfields selector. subst selector.
  rewrite (colorModeSettingsFields_field_selector _ _ _ _ Hflat Hfields).
  cbn [optionValues selectedValue]. split; [| split].
  - rewrite map_map. cbn [optionValue]. apply map_id.
  - intros field ->. reflexivity.
  - intros ->. split; [reflexivity |].
    intros output supportsRgbaFields. cbv zeta. intros Hchanged.
    unfold autoSelectColorSettings in *.
    destruct (bestColorByField fs (supportsPackedRgbModes modifiers)) as [best|];
      [| exfalso; apply Hchanged; reflexivity].
    cbn [truthy] in *. destruct (best =? "")%string; cbn [negb] in *;
      [exfalso; apply Hchanged; reflexivity |].
    destruct supportsRgbaFields as [[|]|];
      try destruct (hasSeparateRgbaFields fs);
      (destruct (toLowerCase best =? "rgb")%string;
       [| destruct (toLowerCase best =? "rgba")%string]); reflexivity.
Qed.

End SettingsFieldsFacts.

(** ** The further properties on concrete inputs *)

Lemma getColorBgra_wraps_witness :
  - 2 ^ 53 < -1 < 2 ^ 53 /\
  getColorBgra someColor (ofZ (-1)) = getColorBgra someColor (ofZ 4294967295).
Proof.
  split; [lia |].
  apply (proj1 (getColorBgra_wraps someColor) (-1)). lia.
Defined.

Lemma converter_invocation_writes_witness :
  exists convert,
    Reference.getColorConverter (exampleSettings "rgb") (ofZ 0) (ofZ 1) initialGlobals
    = (initialGlobals, Returned convert) /\
    sameColors initialGlobals (fst (convert someColor (ofZ 255) initialGlobals)).
Proof.
  eexists. split; [reflexivity |].
  apply (converter_invocation_writes
           Reference.stringToRgbaWrites Reference.SRGBToLinear Reference.rgbaGradient
           Reference.clamp (exampleSettings "rgb") (ofZ 0) (ofZ 1) initialGlobals
           initialGlobals _ eq_refl someColor (ofZ 255) initialGlobals).
Defined.

Lemma converter_reads_shared_objects_witness :
  exists convert gl',
    Reference.getColorConverter (exampleSettings "flat") (ofZ 0) (ofZ 1) initialGlobals
    = (gl', Returned convert) /\
    forall st,
      snd (convert someColor (ofZ 0)
             (fst (Reference.colorHasTransparency (exampleSettings "gradient") st)))
      = snd (convert someColor (ofZ 0) st).
Proof.
  eexists. eexists. split; [reflexivity |]. intros st.
  apply (proj2 (converter_reads_shared_objects
                   Reference.stringToRgbaWrites Reference.SRGBToLinear Reference.rgbaGradient
                   Reference.clamp (exampleSettings "flat") (ofZ 0) (ofZ 1) initialGlobals
                   _ _ eq_refl) (exampleSettings "gradient") someColor (ofZ 0) st).
Defined.

Lemma converter_alpha_is_explicit_witness :
  exists convert,
    Reference.getColorConverter (exampleSettings "rgb") (ofZ 0) (ofZ 1) initialGlobals
    = (initialGlobals, Returned convert) /\
    a (snd (convert someColor (ofZ 255) initialGlobals)) = Num (dec 5 1) /\
    snd (Reference.colorHasTransparency (exampleSettings "rgb") initialGlobals) = Some true.
Proof.
  eexists. split; [reflexivity |].
  destruct (converter_alpha_is_explicit
              Reference.stringToRgbaWrites Reference.SRGBToLinear Reference.rgbaGradient
              Reference.clamp (exampleSettings "rgb") (ofZ 0) (ofZ 1) initialGlobals
              initialGlobals _ eq_refl (or_introl eq_refl)
              someColor (ofZ 255) initialGlobals initialGlobals) as [Halpha Hclass].
  split; [exact Halpha |].
  unfold Reference.colorHasTransparency. rewrite Hclass, Halpha. reflexivity.
Defined.

Lemma flat_converter_alpha_matches_classifier_witness :
  exists convert gl',
    Reference.getColorConverter (exampleSettings "flat") (ofZ 0) (ofZ 1) initialGlobals
    = (gl', Returned convert) /\
    snd (Reference.colorHasTransparency (exampleSettings "flat") initialGlobals)
    = Some (ltb (toNumber (a (snd (convert someColor (ofZ 0) gl')))) (ofZ 1)).
Proof.
  eexists. eexists. split; [reflexivity |].
  apply (flat_converter_alpha_matches_classifier
           Reference.stringToRgbaWrites Reference.SRGBToLinear Reference.rgbaGradient
           Reference.clamp (exampleSettings "flat") (ofZ 0) (ofZ 1) initialGlobals
           _ _ eq_refl eq_refl (fun old old' => eq_refl) someColor (ofZ 0) initialGlobals).
Defined.

Lemma rgb_and_rgba_converters_witness :
  colorMode (exampleSettings "rgb") = "rgb"%string /\
  colorMode (exampleSettings "rgba") = "rgba"%string /\
  isByte 0 /\ isByte 255 /\ isByte 1 /\ isByte 2 /\ isByte 3 /\
  Reference.run
    (Reference.getColorConverter (exampleSettings "rgb") (ofZ 0) (ofZ 1) initialGlobals)
    someColor (ofZ (pack 0 1 2 3))
  = Reference.run
      (Reference.getColorConverter (exampleSettings "rgb") (ofZ 0) (ofZ 1) initialGlobals)
      someColor (ofZ (pack 255 1 2 3)).
Proof.
  assert (B : forall x, 0 <= x <= 255 -> isByte x) by (intros x Hx; exact Hx).
  split; [reflexivity |]. split; [reflexivity |].
  split; [apply B; lia |]. split; [apply B; lia |]. split; [apply B; lia |].
  split; [apply B; lia |]. split; [apply B; lia |].
  destruct (rgb_and_rgba_converters
              Reference.stringToRgbaWrites Reference.SRGBToLinear Reference.rgbaGradient
              Reference.clamp (exampleSettings "rgb") (exampleSettings "rgba")
              (ofZ 0) (ofZ 1) initialGlobals eq_refl eq_refl)
    as (rgbConvert & rgbaConvert & Hrgb & _ & _ & Halpha).
  unfold Reference.run, Reference.getColorConverter. rewrite Hrgb. cbn [fst snd].
  f_equal. apply Halpha; apply B; lia.
Defined.

Lemma turbo_converter_on_NaN_witness :
  let settings := settingsOf "colormap" "#ffffff" ("#000000", "#ffffff")%string "turbo"
                    (dec 5 1) in
  colorMode settings = "colormap"%string /\ colorMap settings = "turbo"%string /\
  Reference.run (Reference.getColorConverter settings (ofZ 0) (ofZ 1) initialGlobals)
    someColor NaN
  = Some (mkColor Undefined Undefined Undefined (Num (dec 5 1))).
Proof.
  cbv zeta. split; [reflexivity |]. split; [reflexivity |].
  destruct (turbo_converter_on_NaN
              Reference.stringToRgbaWrites Reference.SRGBToLinear Reference.rgbaGradient
              Reference.clamp
              (settingsOf "colormap" "#ffffff" ("#000000", "#ffffff")%string "turbo" (dec 5 1))
              (ofZ 0) (ofZ 1) initialGlobals eq_refl eq_refl)
    as (convert & Hbuilt & Hnan).
  unfold Reference.run, Reference.getColorConverter. rewrite Hbuilt. cbn [fst snd].
  rewrite (Hnan someColor NaN initialGlobals (or_introl eq_refl)). reflexivity.
Defined.

Lemma gradient_converter_fraction_witness :
  let built :=
    Reference.getColorConverter (exampleSettings "gradient") (ofZ 5) (ofZ 1) initialGlobals in
  colorMode (exampleSettings "gradient") = "gradient"%string /\
  eqb (Math_max (sub (ofZ 1) (ofZ 5)) Number_EPSILON) (ofZ 0) = false /\
  exists frac,
    inUnitInterval frac /\
    Reference.run built someColor (ofZ 3)
    = Some (Reference.rgbaGradient someColor (tempColor1 (fst built)) (tempColor2 (fst built))
              frac).
Proof.
  cbv zeta. split; [reflexivity |].
  destruct (gradient_converter_fraction
              Reference.stringToRgbaWrites Reference.SRGBToLinear Reference.rgbaGradient
              Reference.clamp (exampleSettings "gradient") (ofZ 5) (ofZ 1) initialGlobals
              eq_refl)
    as (convert & gl' & Hbuilt & Hzero & _ & Hrun).
  split; [exact Hzero |].
  destruct (Hrun someColor (ofZ 3) gl') as [Hcolor [Hnan | Hunit]];
    [vm_compute in Hnan; discriminate Hnan |].
  eexists. split; [exact Hunit |].
  unfold Reference.run, Reference.getColorConverter. rewrite Hbuilt. cbn [fst snd].
  rewrite Hcolor. reflexivity.
Defined.

Lemma rainbowLinear_saturated_witness :
  Reference.clamp NaN (ofZ 0) (ofZ 1) = NaN /\
  rainbowLinear Reference.SRGBToLinear Reference.clamp someColor NaN
  = rgba (ofZ 1) (Reference.SRGBToLinear NaN) (ofZ 0) (ofZ 1).
Proof.
  split; [reflexivity |].
  destruct (rainbowLinear_saturated Reference.SRGBToLinear Reference.clamp someColor NaN)
    as (_ & _ & _ & Hnan).
  apply Hnan. reflexivity.
Defined.

Lemma bestColorByField_member_witness :
  bestColorByField ["x"; "y"; "z"]%string true = Some "z"%string /\
  In "z"%string ["x"; "y"; "z"]%string.
Proof.
  split; [reflexivity |].
  apply (proj1 (bestColorByField_member ["x"; "y"; "z"]%string true)). reflexivity.
Defined.

Lemma bestColorByField_without_packed_support_witness :
  bestColorByField ["RGB"; "x"; "y"]%string false = Some "RGB"%string /\
  Named ["rgb"; "rgba"]%string "RGB"%string /\
  noneWith (Named ["intensity"; "i"]%string) ["RGB"; "x"; "y"]%string /\
  ~ In "z"%string ["RGB"; "x"; "y"]%string.
Proof.
  split; [reflexivity |].
  assert (Hnamed : Named ["rgb"; "rgba"]%string "RGB"%string) by (left; reflexivity).
  split; [exact Hnamed |].
  destruct (bestColorByField_without_packed_support ["RGB"; "x"; "y"]%string "RGB"%string
              eq_refl Hnamed) as (Hi & Hz & _).
  split; [exact Hi | exact Hz].
Defined.

Lemma hasSeparateRgbaFields_set_witness :
  hasSeparateRgbaFields ["alpha"; "blue"; "green"; "red"]%string = true /\
  hasSeparateRgbaFields (["x"; "y"; "z"]%string ++ ["alpha"; "blue"; "green"; "red"]%string)
  = true.
Proof.
  split; [reflexivity |].
  apply (proj2 (proj2 (hasSeparateRgbaFields_set
                         ["alpha"; "blue"; "green"; "red"]%string ["x"; "y"; "z"]%string))).
  reflexivity.
Defined.

Lemma autoSelectColorSettings_modes_witness :
  let fields := ["x"; "y"; "red"; "green"; "blue"; "alpha"]%string in
  let result := autoSelectColorSettings (exampleSettings "flat") fields true (Some true) in
  result <> exampleSettings "flat" /\
  In (colorMode result) ["rgb"; "rgba"; "colormap"; "rgba-fields"]%string /\
  (colorMode result = "rgba-fields"%string <->
   Some true = Some true /\ SeparateRgbaFields fields).
Proof.
  cbv zeta.
  assert (Hchanged :
            autoSelectColorSettings (exampleSettings "flat")
              ["x"; "y"; "red"; "green"; "blue"; "alpha"]%string true (Some true)
            <> exampleSettings "flat")
    by (vm_compute; discriminate).
  split; [exact Hchanged |].
  destruct (autoSelectColorSettings_modes (exampleSettings "flat")
              ["x"; "y"; "red"; "green"; "blue"; "alpha"]%string true (Some true) Hchanged)
    as (Hin & Hfields & _).
  split; [exact Hin | exact Hfields].
Defined.

Lemma autoSelectColorSettings_mode_is_offered_witness :
  let fields := ["x"; "y"; "rgba"]%string in
  let result := autoSelectColorSettings (exampleSettings "flat") fields true (Some false) in
  let selector :=
    getProperty "colorMode"
      (colorModeSettingsFields (fun key => key) (Some fields) (configOf result)
         ("#000000", "#ffffff")%string
         {| supportsPackedRgbModes := true; supportsRgbaFieldsMode := false;
            hideFlatColor := None; hideExplicitAlpha := None |}) in
  result <> exampleSettings "flat" /\
  selectedValue selector = Some (colorMode result) /\
  In (colorMode result) (optionValues selector).
Proof.
  cbv zeta.
  assert (Hchanged :
            autoSelectColorSettings (exampleSettings "flat") ["x"; "y"; "rgba"]%string
              true (Some false)
            <> exampleSettings "flat")
    by (vm_compute; discriminate).
  split; [exact Hchanged |].
  apply (autoSelectColorSettings_mode_is_offered (fun key => key) (exampleSettings "flat")
           ["x"; "y"; "rgba"]%string false None None ("#000000", "#ffffff")%string Hchanged).
Defined.

Lemma colorModeSettingsFields_field_default_witness :
  let config :=
    {| Config.colorMode := Some "colormap"%string; Config.flatColor := None;
       Config.colorField := None; Config.gradient := None; Config.colorMap := None;
       Config.explicitAlpha := None; Config.minValue := None; Config.maxValue := None |} in
  let modifiers :=
    {| supportsPackedRgbModes := false; supportsRgbaFieldsMode := false;
       hideFlatColor := None; hideExplicitAlpha := None |} in
  let selector :=
    getProperty "colorField"
      (colorModeSettingsFields (fun key => key) (Some ["x"; "intensity"]%string) config
         ("#000000", "#ffffff")%string modifiers) in
  effectiveColorMode config modifiers <> "flat"%string /\
  effectiveColorMode config modifiers <> "rgba-fields"%string /\
  optionValues selector = ["x"; "intensity"]%string /\
  selectedValue selector = Some "intensity"%string.
Proof.
  cbv zeta. split; [discriminate |]. split; [discriminate |].
  destruct (colorModeSettingsFields_field_default (fun key => key)
              ["x"; "intensity"]%string
              {| Config.colorMode := Some "colormap"%string; Config.flatColor := None;
                 Config.colorField := None; Config.gradient := None; Config.colorMap := None;
                 Config.explicitAlpha := None; Config.minValue := None;
                 Config.maxValue := None |}
              ("#000000", "#ffffff")%string
              {| supportsPackedRgbModes := false; supportsRgbaFieldsMode := false;
                 hideFlatColor := None; hideExplicitAlpha := None |}
              ltac:(discriminate) ltac:(discriminate))
    as (Hoptions & _ & Hbest).
  split; [exact Hoptions |].
  destruct (Hbest eq_refl) as [Hselected _]. rewrite Hselected. reflexivity.
Defined.
